(** * Ocean data query service: a shallow embedding and its properties

    The development follows [src/ocean_data_query.py] (class
    [OceanDataQuery]) and [load_data.py] (function [load_argo_data]).

    - Python exceptions are an explicit [outcome] type; database code
      runs in [eff], which also records the statements sent, and a
      [try ... except Exception] block is the combinator [eff_try].
    - The relational database is a finite map from table names to row
      lists together with a reachability flag; every SQL statement the
      source sends is a function on the rows of its table.
    - Text the source takes from its runtime (the [repr] of a float or
      of a string, the wall clock, the driver's error messages) is a
      field of the record [runtime].
    - Numbers are rationals: the source only compares, counts and
      averages them.  Strings are ASCII. *)

From Stdlib Require Import ZArith QArith String Ascii List Bool Lia.
From Stdlib Require Import Sorting.Sorted Sorting.Permutation.
From stdpp Require Import gmap strings pretty.

Import ListNotations.
Local Open Scope string_scope.
Local Open Scope Z_scope.

(** ** Python values *)

(** A float as Python compares it: a finite rational, an infinity, or
    not-a-number.  Only the order of floats is used by the source. *)
Inductive pyfloat : Type :=
| Fin (q : Q)
| PosInf
| NegInf
| NaN.

(** [a <= b] on Python floats; every comparison with [NaN] is false. *)
Definition py_le (a b : pyfloat) : bool :=
  match a, b with
  | NaN, _ | _, NaN => false
  | NegInf, _ => true
  | _, PosInf => true
  | Fin x, Fin y => Qle_bool x y
  | _, _ => false
  end.

(** ** Exceptions *)

Inductive exn_class : Type :=
| OceanDataQueryError
| ValueError
| TypeError
| OperationalError      (* the server cannot be reached *)
| ProgrammingError      (* the statement names a missing table *)
| DataError.            (* a parameter cannot be cast by the server *)

Record exn : Type := MkExn { exn_cls : exn_class; exn_text : string }.

Inductive outcome (A : Type) : Type :=
| Return (a : A)
| Raise (e : exn).
Arguments Return {A} a.
Arguments Raise {A} e.

(** Sequencing of statements: the first raise ends the block.  The
    instance gives stdpp's [x ← m; k] notation. *)
#[global] Instance outcome_bind : MBind outcome :=
  fun A B k m =>
    match m with
    | Return a => k a
    | Raise e => Raise e
    end.

#[global] Instance outcome_ret : MRet outcome := fun A a => Return a.

(** [try: m except ValueError as e: h e]: other classes pass through.
    Every class of [exn_class] is a subclass of [Exception]. *)
Definition try_except_ValueError {A : Type}
    (m : outcome A) (h : exn -> outcome A) : outcome A :=
  match m with
  | Return a => Return a
  | Raise e =>
      match exn_cls e with
      | ValueError => h e
      | _ => Raise e
      end
  end.

(** ** Calendar dates and timestamps *)

Record date : Type := MkDate { d_year : Z; d_month : Z; d_day : Z }.

(** A [datetime] value, also the content of the [datetime] column: a
    date and the second of the day.  ISO-8601 text is ordered the same
    way. *)
Record datetime : Type := MkTs { ts_date : date; ts_sec : Z }.

Definition lex2 (c1 c2 : comparison) : comparison :=
  match c1 with
  | Eq => c2
  | _ => c1
  end.

Definition date_compare (a b : date) : comparison :=
  lex2 (d_year a ?= d_year b)
       (lex2 (d_month a ?= d_month b) (d_day a ?= d_day b)).

Definition ts_compare (a b : datetime) : comparison :=
  lex2 (date_compare (ts_date a) (ts_date b)) (ts_sec a ?= ts_sec b).

Definition ts_leb (a b : datetime) : bool :=
  match ts_compare a b with
  | Gt => false
  | _ => true
  end.

(** [a > b] on [datetime] objects. *)
Definition ts_gtb (a b : datetime) : bool := negb (ts_leb a b).

(** [datetime.combine(d, datetime.min.time())] *)
Definition midnight (d : date) : datetime := MkTs d 0.

Definition is_leap (y : Z) : bool :=
  ((y mod 4 =? 0) && negb (y mod 100 =? 0)) || (y mod 400 =? 0).

Definition days_in_month (y m : Z) : Z :=
  if m =? 2 then (if is_leap y then 29 else 28)
  else if (m =? 4) || (m =? 6) || (m =? 9) || (m =? 11) then 30
  else 31.

(** A value held by a DataFrame cell or by a returned dictionary. *)
Inductive pyval : Type :=
| PNone
| PNaN
| PFloat (q : Q)
| PInt (z : Z)
| PStr (s : string)
| PTime (t : datetime).

(** [pd.isna]: true on [None] and on the float [nan]. *)
Definition isna (v : pyval) : bool :=
  match v with
  | PNone | PNaN => true
  | _ => false
  end.

(** A dictionary with string keys, in insertion order. *)
Definition pydict : Type := list (string * pyval).

Fixpoint dict_get (k : string) (d : pydict) : option pyval :=
  match d with
  | [] => None
  | (k', v) :: d' => if String.eqb k k' then Some v else dict_get k d'
  end.

(** ** Text helpers *)

Definition between (lo hi c : ascii) : bool :=
  ((nat_of_ascii lo <=? nat_of_ascii c) && (nat_of_ascii c <=? nat_of_ascii hi))%nat.

(** The regular-expression class [\d] on ASCII text. *)
Definition is_digit (c : ascii) : bool := between "0" "9" c.

Definition digit_val (c : ascii) : Z := Z.of_nat (nat_of_ascii c) - 48.

(** Decimal text of [n], zero-padded on the left to [w] characters. *)
Definition zero_pad (w : nat) (n : Z) : string :=
  let t := pretty n in
  String.concat "" (repeat "0" (w - String.length t)) ++ t.

(** Python's format specification [{n:,}]: decimal digits with a comma
    between groups of three, counted from the right. *)
Fixpoint group3 (rev_digits : list ascii) : list ascii :=
  match rev_digits with
  | a :: b :: c :: ((_ :: _) as more) => a :: b :: c :: "," %char :: group3 more
  | short => short
  end.

Definition format_thousands (n : nat) : string :=
  string_of_list_ascii
    (rev (group3 (rev (list_ascii_of_string (pretty (Z.of_nat n)))))).

(** ** [datetime.strptime(s, "%Y-%m-%d")] and [strftime("%Y-%m-%d")]

    The directive [%Y] is the pattern [\d\d\d\d], [%m] is
    [1[0-2]|0[1-9]|[1-9]] and [%d] is [3[01]|[12]\d|0[1-9]|[1-9]| [1-9]];
    alternatives are tried left to right.  Each matcher returns the
    number read and the text that follows it. *)

Definition match_Y (s : string) : option (Z * string) :=
  match s with
  | String a (String b (String c (String d rest))) =>
      if is_digit a && is_digit b && is_digit c && is_digit d
      then Some (1000 * digit_val a + 100 * digit_val b
                 + 10 * digit_val c + digit_val d, rest)
      else None
  | _ => None
  end.

Definition match_m (s : string) : option (Z * string) :=
  match s with
  | String a rest =>
      let two :=
        match rest with
        | String b rest' =>
            if Ascii.eqb a "1" && between "0" "2" b
            then Some (10 + digit_val b, rest')
            else if Ascii.eqb a "0" && between "1" "9" b
            then Some (digit_val b, rest')
            else None
        | EmptyString => None
        end in
      match two with
      | Some r => Some r
      | None => if between "1" "9" a then Some (digit_val a, rest) else None
      end
  | EmptyString => None
  end.

Definition match_d (s : string) : option (Z * string) :=
  match s with
  | String a rest =>
      let two :=
        match rest with
        | String b rest' =>
            if Ascii.eqb a "3" && between "0" "1" b
            then Some (30 + digit_val b, rest')
            else if between "1" "2" a && is_digit b
            then Some (10 * digit_val a + digit_val b, rest')
            else if Ascii.eqb a "0" && between "1" "9" b
            then Some (digit_val b, rest')
            else None
        | EmptyString => None
        end in
      match two with
      | Some r => Some r
      | None =>
          if between "1" "9" a then Some (digit_val a, rest)
          else match rest with
               | String b rest' =>
                   if Ascii.eqb a " " && between "1" "9" b
                   then Some (digit_val b, rest')
                   else None
               | EmptyString => None
               end
      end
  | EmptyString => None
  end.

Definition match_dash (s : string) : option string :=
  match s with
  | String c rest => if Ascii.eqb c "-" then Some rest else None
  | EmptyString => None
  end.

(** The whole pattern: year, month, day and the unread remainder. *)
Definition match_ymd (s : string) : option (date * string) :=
  '(y, s1) ← match_Y s;
  s2 ← match_dash s1;
  '(m, s3) ← match_m s2;
  s4 ← match_dash s3;
  '(d, s5) ← match_d s4;
  Some (MkDate y m d, s5).

(** [date(y, m, d)] exists. *)
Definition valid_date (d : date) : bool :=
  (1 <=? d_year d) && (d_year d <=? 9999)
  && (1 <=? d_month d) && (d_month d <=? 12)
  && (1 <=? d_day d) && (d_day d <=? days_in_month (d_year d) (d_month d)).

Definition strftime (d : date) : string :=
  zero_pad 4 (d_year d) ++ "-" ++ zero_pad 2 (d_month d) ++ "-"
  ++ zero_pad 2 (d_day d).

(** An argument of type [Union[str, date]]. *)
Inductive date_arg : Type :=
| DStr (s : string)
| DDate (d : date).

(** An argument of type [Tuple[float, float]], or [None]. *)
Definition range_arg : Type := option (pyfloat * pyfloat).

(** What the program takes from its runtime as text: Python's [repr] of
    a float and of a string, the text of [datetime.now().isoformat()],
    and the database driver's message for each failure it reports. *)
Record runtime : Type := MkRuntime {
  repr_float : pyfloat -> string;
  repr_str : string -> string;
  now_iso : string;
  driver_text : exn_class -> string
}.

Section Service.

Variable rt : runtime.

Definition repr_range (r : pyfloat * pyfloat) : string :=
  "(" ++ repr_float rt (fst r) ++ ", " ++ repr_float rt (snd r) ++ ")".

Definition strptime (s : string) : outcome datetime :=
  match match_ymd s with
  | None =>
      Raise (MkExn ValueError
               ("time data " ++ repr_str rt s ++ " does not match format "
                ++ repr_str rt "%Y-%m-%d"))
  | Some (d, rest) =>
      match rest with
      | String _ _ =>
          Raise (MkExn ValueError ("unconverted data remains: " ++ rest))
      | EmptyString =>
          if valid_date d then Return (midnight d)
          else if d_year d =? 0
          then Raise (MkExn ValueError "year 0 is out of range")
          else Raise (MkExn ValueError "day is out of range for month")
      end
  end.

(** ** The validators of [OceanDataQuery] *)

Definition error (msg : string) : exn := MkExn OceanDataQueryError msg.

(** [-90 <= lo <= hi <= 90], a chained comparison. *)
Definition in_range (bound : Q) (r : pyfloat * pyfloat) : bool :=
  py_le (Fin (- bound)) (fst r) && py_le (fst r) (snd r)
  && py_le (snd r) (Fin bound).

Definition _validate_coordinates (lat_range lon_range : range_arg) : outcome bool :=
  _ ← match lat_range with
      | Some r =>
          if negb (in_range 90 r)
          then Raise (error ("Invalid latitude range: " ++ repr_range r
                             ++ ". Must be between -90 and 90"))
          else Return tt
      | None => Return tt
      end;
  _ ← match lon_range with
      | Some r =>
          if negb (in_range 180 r)
          then Raise (error ("Invalid longitude range: " ++ repr_range r
                             ++ ". Must be between -180 and 180"))
          else Return tt
      | None => Return tt
      end;
  Return true.

(** The two branches of [isinstance(x, str)]: the [datetime] compared
    and the text passed on. *)
Definition date_and_text (x : date_arg) : outcome (datetime * string) :=
  match x with
  | DStr s => dt ← strptime s; Return (dt, s)
  | DDate d => Return (midnight d, strftime d)
  end.

Definition _validate_dates (start_date end_date : date_arg)
  : outcome (string * string) :=
  try_except_ValueError
    ('(start_dt, start_str) ← date_and_text start_date;
     '(end_dt, end_str) ← date_and_text end_date;
     if ts_gtb start_dt end_dt
     then Raise (error ("Start date " ++ start_str
                        ++ " must be before end date " ++ end_str))
     else Return (start_str, end_str))
    (fun e => Raise (error ("Invalid date format: " ++ exn_text e))).

(** ** The database

    A row of the observation table: the four columns the queries name
    and the remaining numeric columns by name.  [None] is SQL NULL. *)
Record row : Type := MkRow {
  r_datetime : option datetime;
  r_lat : option Q;
  r_lon : option Q;
  r_mld : option Q;
  r_extra : list (string * option Q)
}.

Record database : Type := MkDb {
  db_up : bool;
  db_tables : gmap string (list row)
}.

(** The statements the program sends. *)
Inductive stmt : Type :=
| SelectOne
| SelectSample
| SelectCount
| SelectByLocation
| SelectByDate
| SelectSummary
| SelectTemporal
| ReplaceTable.

(** A computation that talks to the database: its outcome and the
    statements it sent, in order. *)
Definition eff (A : Type) : Type := (outcome A * list stmt)%type.

#[global] Instance eff_bind : MBind eff :=
  fun A B k m =>
    match fst m with
    | Return a => (fst (k a), (snd m ++ snd (k a))%list)
    | Raise e => (Raise e, snd m)
    end.

#[global] Instance eff_ret : MRet eff := fun A a => (Return a, []).

Definition lift {A : Type} (m : outcome A) : eff A := (m, []).

(** [try: m except Exception as e: h e] around database code. *)
Definition eff_try {A : Type} (m : eff A) (h : exn -> eff A) : eff A :=
  match fst m with
  | Return a => m
  | Raise e => (fst (h e), (snd m ++ snd (h e))%list)
  end.

(** [engine.connect()] *)
Definition connect (db : database) : eff unit :=
  if db_up db then (Return tt, [])
  else (Raise (MkExn OperationalError (driver_text rt OperationalError)), []).

(** One statement on table [name]; [q] is its meaning on the rows. *)
Definition execute {A : Type} (db : database) (s : stmt) (name : string)
    (q : list row -> outcome A) : eff A :=
  match db_tables db !! name with
  | Some rows => (q rows, [s])
  | None =>
      (Raise (MkExn ProgrammingError (driver_text rt ProgrammingError)), [s])
  end.

(** [with engine.connect() as conn:] around one statement, case by case. *)
Definition on_table {A : Type} (db : database) (s : stmt) (name : string)
    (q : list row -> outcome A) : eff A :=
  if db_up db then
    match db_tables db !! name with
    | Some rows => (q rows, [s])
    | None => (Raise (MkExn ProgrammingError (driver_text rt ProgrammingError)), [s])
    end
  else (Raise (MkExn OperationalError (driver_text rt OperationalError)), []).

(** ** SQL fragments *)

(** [ORDER BY datetime]: ascending, NULL after every value. *)
Definition sql_time_leb (a b : option datetime) : bool :=
  match a, b with
  | _, None => true
  | None, Some _ => false
  | Some x, Some y => ts_leb x y
  end.

Definition row_leb (a b : row) : bool :=
  sql_time_leb (r_datetime a) (r_datetime b).

Fixpoint insert_by {A : Type} (leb : A -> A -> bool) (x : A) (l : list A) : list A :=
  match l with
  | [] => [x]
  | y :: l' => if leb x y then x :: l else y :: insert_by leb x l'
  end.

(** The sort the server runs is not fixed by the program; this one keeps
    rows with equal keys in their stored order. *)
Definition order_by_datetime (rows : list row) : list row :=
  foldr (insert_by row_leb) [] rows.

(** [LIMIT :limit] *)
Definition sql_limit {A : Type} (limit : Z) (l : list A) : list A :=
  firstn (Z.to_nat limit) l.

(** [col BETWEEN :lo AND :hi]; NULL is never between. *)
Definition sql_between (v : option Q) (lo hi : pyfloat) : bool :=
  match v with
  | Some q => py_le lo (Fin q) && py_le (Fin q) hi
  | None => false
  end.

(** [datetime >= :start_date AND datetime <= :end_date] *)
Definition sql_time_within (v : option datetime) (lo hi : datetime) : bool :=
  match v with
  | Some t => ts_leb lo t && ts_leb t hi
  | None => false
  end.

(** The server's cast of a text parameter to a timestamp. *)
Definition sql_cast_date (s : string) : outcome datetime :=
  match match_ymd s with
  | Some (d, EmptyString) =>
      if valid_date d then Return (midnight d)
      else Raise (MkExn DataError (driver_text rt DataError))
  | _ => Raise (MkExn DataError (driver_text rt DataError))
  end.

(** [SELECT * FROM t ORDER BY datetime LIMIT :limit] *)
Definition sql_sample (limit : Z) (rows : list row) : list row :=
  sql_limit limit (order_by_datetime rows).

(** [SELECT COUNT( * ) FROM t] *)
Definition sql_count (rows : list row) : Z := Z.of_nat (length rows).

(** [SELECT * FROM t WHERE lat BETWEEN .. AND lon BETWEEN ..
    ORDER BY datetime LIMIT :limit] *)
Definition sql_by_location (min_lat max_lat min_lon max_lon : pyfloat)
    (limit : Z) (rows : list row) : list row :=
  sql_limit limit
    (order_by_datetime
       (List.filter (fun r => sql_between (r_lat r) min_lat max_lat
                              && sql_between (r_lon r) min_lon max_lon) rows)).

(** [SELECT * FROM t WHERE datetime >= :start_date AND
    datetime <= :end_date ORDER BY datetime LIMIT :limit] *)
Definition sql_by_date (start_date end_date : string) (limit : Z)
    (rows : list row) : outcome (list row) :=
  lo ← sql_cast_date start_date;
  hi ← sql_cast_date end_date;
  Return (sql_limit limit
            (order_by_datetime
               (List.filter (fun r => sql_time_within (r_datetime r) lo hi) rows))).

(** *** Aggregates; each skips NULL and is NULL on no value *)

Definition values {A : Type} (col : list (option A)) : list A := omap id col.

Definition least {A : Type} (leb : A -> A -> bool) (l : list A) : option A :=
  match l with
  | [] => None
  | x :: l' => Some (fold_left (fun m y => if leb m y then m else y) l' x)
  end.

Definition sql_min (col : list (option Q)) : option Q :=
  least Qle_bool (values col).

Definition sql_max (col : list (option Q)) : option Q :=
  least (fun a b => Qle_bool b a) (values col).

Definition sql_avg (col : list (option Q)) : option Q :=
  match values col with
  | [] => None
  | l => Some (fold_right Qplus 0%Q l / inject_Z (Z.of_nat (length l)))%Q
  end.

Definition sql_min_time (col : list (option datetime)) : option datetime :=
  least ts_leb (values col).

Definition sql_max_time (col : list (option datetime)) : option datetime :=
  least (fun a b => ts_leb b a) (values col).

#[global] Instance date_eq_dec : EqDecision date.
Proof. solve_decision. Defined.

#[global] Instance datetime_eq_dec : EqDecision datetime.
Proof. solve_decision. Defined.

(** [COUNT(DISTINCT datetime)] *)
Definition sql_count_distinct (col : list (option datetime)) : Z :=
  Z.of_nat (length (remove_dups (values col))).

(** The row [fetchone()] returns for the summary statement, by index. *)
Record summary_row : Type := MkSummaryRow {
  col0_total_records : Z;
  col1_min_latitude : option Q;
  col2_max_latitude : option Q;
  col3_min_longitude : option Q;
  col4_max_longitude : option Q;
  col5_earliest_date : option datetime;
  col6_latest_date : option datetime;
  col7_avg_mixed_layer_depth : option Q;
  col8_min_mixed_layer_depth : option Q;
  col9_max_mixed_layer_depth : option Q;
  col10_unique_dates : Z
}.

Definition mld_not_null (r : row) : bool :=
  match r_mld r with
  | Some _ => true
  | None => false
  end.

(** [SELECT COUNT( * ), MIN(lat), ... FROM t WHERE mld IS NOT NULL] *)
Definition sql_summary (rows : list row) : summary_row :=
  let sel := List.filter mld_not_null rows in
  MkSummaryRow
    (sql_count sel)
    (sql_min (map r_lat sel)) (sql_max (map r_lat sel))
    (sql_min (map r_lon sel)) (sql_max (map r_lon sel))
    (sql_min_time (map r_datetime sel)) (sql_max_time (map r_datetime sel))
    (sql_avg (map r_mld sel))
    (sql_min (map r_mld sel)) (sql_max (map r_mld sel))
    (sql_count_distinct (map r_datetime sel)).

(** *** Row counts by year and month *)

(** [EXTRACT(YEAR ..), EXTRACT(MONTH ..)] of the row; NULL when the
    timestamp is NULL. *)
Definition year_month (r : row) : option (Z * Z) :=
  match r_datetime r with
  | Some t => Some (d_year (ts_date t), d_month (ts_date t))
  | None => None
  end.

(** [ORDER BY year, month]: ascending, the NULL group last. *)
Definition key_compare (a b : option (Z * Z)) : comparison :=
  match a, b with
  | None, None => Eq
  | None, Some _ => Gt
  | Some _, None => Lt
  | Some x, Some y => lex2 (fst x ?= fst y) (snd x ?= snd y)
  end.

Fixpoint group_insert (k : option (Z * Z)) (g : list (option (Z * Z) * nat))
  : list (option (Z * Z) * nat) :=
  match g with
  | [] => [(k, 1%nat)]
  | (k', c) :: g' =>
      match key_compare k k' with
      | Eq => (k', S c) :: g'
      | Lt => (k, 1%nat) :: g
      | Gt => (k', c) :: group_insert k g'
      end
  end.

(** [GROUP BY year, month ORDER BY year, month] *)
Definition group_by_month (rows : list row) : list (option (Z * Z) * nat) :=
  foldr (fun r g => group_insert (year_month r) g) [] rows.

(** [SELECT year, month, COUNT( * ) ... GROUP BY .. ORDER BY year, month
    LIMIT 12] *)
Definition sql_temporal (rows : list row) : list (option (Z * Z) * nat) :=
  sql_limit 12 (group_by_month rows).

(** ** DataFrames and dictionaries

    [pd.read_sql] reads NULL into a column that holds a number as the
    float [nan] (dtype float64) and into any other column as [None]
    (dtype object). *)

Definition has_value {A : Type} (col : list (option A)) : bool :=
  existsb (fun c => match c with Some _ => true | None => false end) col.

Definition null_of {A : Type} (col : list (option A)) : pyval :=
  if has_value col then PNaN else PNone.

Definition num_cell (col : list (option Q)) (c : option Q) : pyval :=
  match c with
  | Some q => PFloat q
  | None => null_of col
  end.

Definition time_cell (c : option datetime) : pyval :=
  match c with
  | Some t => PTime t
  | None => PNone
  end.

Fixpoint assoc {A : Type} (k : string) (l : list (string * A)) : option A :=
  match l with
  | [] => None
  | (k', v) :: l' => if String.eqb k k' then Some v else assoc k l'
  end.

Definition extra_col (k : string) (df : list row) : list (option Q) :=
  map (fun r => default None (assoc k (r_extra r))) df.

(** The dictionary of row [r] of the DataFrame [df]. *)
Definition row_dict (df : list row) (r : row) : pydict :=
  ("datetime", time_cell (r_datetime r))
  :: ("lat", num_cell (map r_lat df) (r_lat r))
  :: ("lon", num_cell (map r_lon df) (r_lon r))
  :: ("mld", num_cell (map r_mld df) (r_mld r))
  :: map (fun kc => (fst kc, num_cell (extra_col (fst kc) df) (snd kc)))
       (r_extra r).

(** [df.to_dict('records')] on the result of a [SELECT *]. *)
Definition to_dict_records (df : list row) : list pydict :=
  map (row_dict df) df.

(** [temporal_df.to_dict('records')] *)
Definition temporal_to_dict (df : list (option (Z * Z) * nat)) : list pydict :=
  let keys := map fst df in
  let cell (f : Z * Z -> Z) (k : option (Z * Z)) : pyval :=
    match k with
    | Some ym => PFloat (inject_Z (f ym))
    | None => null_of keys
    end in
  map (fun g => [("year", cell fst (fst g)); ("month", cell snd (fst g));
                 ("record_count", PInt (Z.of_nat (snd g)))])
      df.

(** The loop [for record in records: for key, value in record.items():
    if pd.isna(value): record[key] = None]. *)
Definition none_if_na (v : pyval) : pyval := if isna v then PNone else v.

Definition nan_to_none (records : list pydict) : list pydict :=
  map (map (fun kv => (fst kv, none_if_na (snd kv)))) records.

(** [list(df.columns) if not df.empty else []] *)
Definition columns_of (records : list pydict) : list string :=
  match records with
  | [] => []
  | d :: _ => map fst d
  end.

(** ** The response envelope *)

(** The [data] of [get_data_summary]. *)
Record data_summary : Type := MkSummary {
  total_records : Z;
  unique_dates : Z;
  date_earliest : pyval;
  date_latest : pyval;
  latitude_min : pyval;
  latitude_max : pyval;
  longitude_min : pyval;
  longitude_max : pyval;
  mld_average : pyval;
  mld_minimum : pyval;
  mld_maximum : pyval;
  temporal_distribution : list pydict
}.

Inductive payload : Type :=
| Records (l : list pydict)          (* a list of row dictionaries *)
| Count (n : Z)                      (* a dict with key total_records *)
| Summary (s : data_summary)
| EmptyDict.                         (* the empty dict *)

Inductive meta : Type :=
| MetaSample (limit : Z) (returned_records : nat) (columns : list string)
| MetaCount (table : string)
| MetaLocation (latitude_range longitude_range : range_arg) (limit : Z)
    (returned_records : nat) (columns : list string)
| MetaDateRange (start_date end_date : string) (limit : Z)
    (returned_records : nat) (columns : list string)
| MetaSummary (generated_at : string) (table : string).

Record envelope : Type := MkEnvelope {
  success : bool;
  timestamp : string;
  message : string;
  data : payload;
  metadata : option meta
}.

Definition _format_response (data : payload) (success : bool)
    (message : string) (metadata : option meta) : envelope :=
  MkEnvelope success (now_iso rt) message data metadata.

(** ** The query service *)

Record OceanDataQuery : Type := MkService { table_name : string }.

Definition _connect (db : database) : eff unit :=
  eff_try
    (_ ← connect db; ((Return tt, [SelectOne]) : eff unit))
    (fun e => lift (Raise (error ("Failed to connect to database: "
                                  ++ exn_text e)))).

Definition __init__ (table_name : string) (db : database) : eff OceanDataQuery :=
  _ ← _connect db; mret (MkService table_name).

Definition check_limit (limit bound : Z) (msg : string) : outcome unit :=
  if (limit <=? 0) || (limit >? bound) then Raise (error msg) else Return tt.

Definition str_nat (n : nat) : string := pretty (Z.of_nat n).

(** The [try] block of [get_sample_data]. *)
Definition sample_data_try (self : OceanDataQuery) (db : database)
    (limit : Z) : eff envelope :=
  _ ← lift (check_limit limit 1000 "Limit must be between 1 and 1000");
  df ← (_ ← connect db;
        execute db SelectSample (table_name self)
          (fun rows => Return (sql_sample limit rows)));
  let records := nan_to_none (to_dict_records df) in
  let metadata := MetaSample limit (length records) (columns_of records) in
  mret (_format_response (Records records) true
          ("Retrieved " ++ str_nat (length records) ++ " sample records")
          (Some metadata)).

Definition get_sample_data (self : OceanDataQuery) (db : database)
    (limit : Z) : eff envelope :=
  eff_try
    (sample_data_try self db limit)
    (fun e =>
       mret (_format_response (Records []) false
               ("Error retrieving sample data: " ++ exn_text e) None)).

(** The [try] block of [get_data_count]. *)
Definition data_count_try (self : OceanDataQuery) (db : database) : eff envelope :=
  count ← (_ ← connect db;
           execute db SelectCount (table_name self)
             (fun rows => Return (sql_count rows)));
  let metadata := MetaCount (table_name self) in
  mret (_format_response (Count count) true
          ("Total records in " ++ table_name self ++ ": "
           ++ format_thousands (Z.to_nat count))
          (Some metadata)).

Definition get_data_count (self : OceanDataQuery) (db : database) : eff envelope :=
  eff_try
    (data_count_try self db)
    (fun e =>
       mret (_format_response (Count 0) false
               ("Error counting records: " ++ exn_text e) None)).

(** [lo, hi = r] *)
Definition unpack (r : range_arg) : outcome (pyfloat * pyfloat) :=
  match r with
  | Some p => Return p
  | None =>
      Raise (MkExn TypeError "cannot unpack non-iterable NoneType object")
  end.

(** The [try] block of [query_by_location]. *)
Definition location_try (self : OceanDataQuery) (db : database)
    (lat_range lon_range : range_arg) (limit : Z) : eff envelope :=
  _ ← lift (_validate_coordinates lat_range lon_range);
  _ ← lift (check_limit limit 10000 "Limit must be between 1 and 10,000");
  lat ← lift (unpack lat_range);
  lon ← lift (unpack lon_range);
  df ← (_ ← connect db;
        execute db SelectByLocation (table_name self)
          (fun rows => Return (sql_by_location (fst lat) (snd lat)
                                 (fst lon) (snd lon) limit rows)));
  let records := nan_to_none (to_dict_records df) in
  let metadata := MetaLocation lat_range lon_range limit (length records)
                    (columns_of records) in
  mret (_format_response (Records records) true
          ("Retrieved " ++ str_nat (length records)
           ++ " records for location query")
          (Some metadata)).

Definition query_by_location (self : OceanDataQuery) (db : database)
    (lat_range lon_range : range_arg) (limit : Z) : eff envelope :=
  eff_try
    (location_try self db lat_range lon_range limit)
    (fun e =>
       mret (_format_response (Records []) false
               ("Error querying by location: " ++ exn_text e) None)).

(** The [try] block of [query_by_date_range]. *)
Definition date_range_try (self : OceanDataQuery) (db : database)
    (start_date end_date : date_arg) (limit : Z) : eff envelope :=
  dates ← lift (_validate_dates start_date end_date);
  let start_str := fst dates in
  let end_str := snd dates in
  _ ← lift (check_limit limit 10000 "Limit must be between 1 and 10,000");
  df ← (_ ← connect db;
        execute db SelectByDate (table_name self)
          (sql_by_date start_str end_str limit));
  let records := nan_to_none (to_dict_records df) in
  let metadata := MetaDateRange start_str end_str limit (length records)
                    (columns_of records) in
  mret (_format_response (Records records) true
          ("Retrieved " ++ str_nat (length records)
           ++ " records for date range " ++ start_str ++ " to " ++ end_str)
          (Some metadata)).

Definition query_by_date_range (self : OceanDataQuery) (db : database)
    (start_date end_date : date_arg) (limit : Z) : eff envelope :=
  eff_try
    (date_range_try self db start_date end_date limit)
    (fun e =>
       mret (_format_response (Records []) false
               ("Error querying by date range: " ++ exn_text e) None)).

(** [int(x) if x else 0] *)
Definition int_or_zero (x : Z) : Z := if x =? 0 then 0 else x.

(** [float(x) if x else None]: NULL and zero are both false. *)
Definition float_or_none (x : option Q) : pyval :=
  match x with
  | Some q => if Qeq_bool q 0 then PNone else PFloat q
  | None => PNone
  end.

(** [str(x) if x else None] *)
Definition str_or_none (x : option datetime) : pyval :=
  match x with
  | Some t => PTime t
  | None => PNone
  end.

(** The block under the comment [# Format summary data]. *)
Definition format_summary_data (summary_row : summary_row)
    (temporal_df : list (option (Z * Z) * nat)) : data_summary :=
  MkSummary
    (int_or_zero (col0_total_records summary_row))
    (int_or_zero (col10_unique_dates summary_row))
    (str_or_none (col5_earliest_date summary_row))
    (str_or_none (col6_latest_date summary_row))
    (float_or_none (col1_min_latitude summary_row))
    (float_or_none (col2_max_latitude summary_row))
    (float_or_none (col3_min_longitude summary_row))
    (float_or_none (col4_max_longitude summary_row))
    (float_or_none (col7_avg_mixed_layer_depth summary_row))
    (float_or_none (col8_min_mixed_layer_depth summary_row))
    (float_or_none (col9_max_mixed_layer_depth summary_row))
    (temporal_to_dict temporal_df).

(** The [try] block of [get_data_summary]. *)
Definition data_summary_try (self : OceanDataQuery) (db : database) : eff envelope :=
  res ← (_ ← connect db;
         summary_row ← execute db SelectSummary (table_name self)
                         (fun rows => Return (sql_summary rows));
         temporal_df ← execute db SelectTemporal (table_name self)
                         (fun rows => Return (sql_temporal rows));
         mret (summary_row, temporal_df));
  let summary_data := format_summary_data (fst res) (snd res) in
  let metadata := MetaSummary (now_iso rt) (table_name self) in
  mret (_format_response (Summary summary_data) true
          "Dataset summary generated successfully" (Some metadata)).

Definition get_data_summary (self : OceanDataQuery) (db : database) : eff envelope :=
  eff_try
    (data_summary_try self db)
    (fun e =>
       mret (_format_response EmptyDict false
               ("Error generating data summary: " ++ exn_text e) None)).

(** ** The loader ([load_data.py]) *)

(** What [pd.read_csv] makes of a file: its data rows, or a parse error. *)
Inductive file : Type :=
| CsvFile (rows : list row)
| NotCsv (why : string).

Definition read_csv (f : file) : outcome (list row) :=
  match f with
  | CsvFile rows => Return rows
  | NotCsv why => Raise (MkExn ValueError why)
  end.

(** [df.to_sql(table_name, engine, if_exists='replace', index=False)] *)
Definition to_sql (db : database) (name : string) (df : list row)
  : outcome database :=
  if db_up db
  then Return (MkDb (db_up db) (<[name := df]> (db_tables db)))
  else Raise (MkExn OperationalError (driver_text rt OperationalError)).

(** The result and the database after the call; [fs] maps the paths
    that exist to their files. *)
Definition load_argo_data (fs : gmap string file) (db : database)
    (csv_file_path table_name : string) : bool * database :=
  match fs !! csv_file_path with
  | None => (false, db)
  | Some f =>
      match (df ← read_csv f; to_sql db table_name df) with
      | Return db' => (true, db')
      | Raise _ => (false, db)
      end
  end.

(** ** Vocabulary of the statements below *)

(** The envelope of a failed call: [success] false and [data] the empty
    value [zero] of the operation. *)
Definition failure_envelope (zero : payload) (env : envelope) : Prop :=
  success env = false /\ data env = zero.

(** [op] returns an envelope whatever its [try] block [body] does, and
    when the block raises [e] the envelope is the failure envelope with
    the text of [e] after [prefix]. *)
Definition handled (body op : eff envelope) (zero : payload)
    (prefix : string) : Prop :=
  exists env, fst op = Return env /\
    (forall e, fst body = Raise e ->
               failure_envelope zero env /\ message env = prefix ++ exn_text e).

(** A bound of a coordinate range lies outside [[-bound, bound]]; a
    bound that is not a finite number lies outside every interval. *)
Definition outside (bound : Q) (v : pyfloat) : Prop :=
  match v with
  | Fin q => (q < - bound \/ bound < q)%Q
  | _ => True
  end.

(** The range has [min > max]. *)
Definition inverted (r : pyfloat * pyfloat) : Prop :=
  match r with
  | (Fin lo, Fin hi) => (hi < lo)%Q
  | _ => False
  end.

Definition bad_range (bound : Q) (r : pyfloat * pyfloat) : Prop :=
  outside bound (fst r) \/ outside bound (snd r) \/ inverted r.






(** No field of the dictionaries of [l] holds the float [nan]. *)
Definition no_nan (l : list pydict) : Prop :=
  forall d, In d l -> forall k v, In (k, v) d -> v <> PNaN.







(** The server is down or has no table [name]. *)
Definition db_fails (db : database) (name : string) : Prop :=
  db_up db = false \/ db_tables db !! name = None.

End Service.

(** ** A small instance, used to run the definitions *)

Definition demo_rt : runtime :=
  MkRuntime (fun _ => "<float>") (fun s => "'" ++ s ++ "'")
    "2025-01-01T00:00:00" (fun _ => "driver error").

Definition at_day (y m d : Z) : option datetime := Some (midnight (MkDate y m d)).

Definition demo_rows : list row :=
  [ MkRow (at_day 2019 2 1) (Some 5%Q) (Some 70%Q) (Some 30%Q) [("sst", None)];
    MkRow None (Some 0%Q) (Some 65%Q) None [("sst", Some 1%Q)];
    MkRow (at_day 2019 1 29) (Some (-20)%Q) (Some 70%Q) (Some 0%Q) [("sst", None)];
    MkRow (at_day 2019 1 29) None (Some 61%Q) (Some 12%Q) [("sst", None)] ].

Definition demo_db : database := MkDb true {[ "argo_data" := demo_rows ]}.

(** The server is down. *)
Definition down_db : database := MkDb false {[ "argo_data" := demo_rows ]}.

(** The server is up and has no table. *)
Definition bare_db : database := MkDb true ∅.



(** A file system with one CSV file of four data rows. *)
Definition demo_fs : gmap string file := {[ "ARGO_2019.csv" := CsvFile demo_rows ]}.

Definition demo_service : OceanDataQuery := MkService "argo_data".


(** ** The rest of the two modules

    The module-level functions of [ocean_data_query.py], and the
    connection tests, the table check and [main] of [load_data.py]. *)

(** The convenience functions: each builds a query object for the table
    and calls its method. *)
Module Convenience.

Definition get_sample_data (rt : runtime) (db : database) (limit : Z)
    (table_name : string) : eff envelope :=
  query_handler ← __init__ rt table_name db;
  get_sample_data rt query_handler db limit.

Definition get_data_count (rt : runtime) (db : database)
    (table_name : string) : eff envelope :=
  query_handler ← __init__ rt table_name db;
  get_data_count rt query_handler db.

Definition query_by_location (rt : runtime) (db : database)
    (lat_range lon_range : range_arg) (limit : Z) (table_name : string)
  : eff envelope :=
  query_handler ← __init__ rt table_name db;
  query_by_location rt query_handler db lat_range lon_range limit.

Definition query_by_date_range (rt : runtime) (db : database)
    (start_date end_date : date_arg) (limit : Z) (table_name : string)
  : eff envelope :=
  query_handler ← __init__ rt table_name db;
  query_by_date_range rt query_handler db start_date end_date limit.

Definition get_data_summary (rt : runtime) (db : database)
    (table_name : string) : eff envelope :=
  query_handler ← __init__ rt table_name db;
  get_data_summary rt query_handler db.

End Convenience.

(** [test_postgresql_connection] and [test_sqlalchemy_connection]: each
    connects, runs a statement that names no table and returns [True];
    any exception gives [False]. *)
Definition test_postgresql_connection (rt : runtime) (db : database) : bool :=
  match fst (connect rt db) with
  | Return _ => true
  | Raise _ => false
  end.

Definition test_sqlalchemy_connection (rt : runtime) (db : database) : bool :=
  match fst (connect rt db) with
  | Return _ => true
  | Raise _ => false
  end.

(** [check_table_exists]: the [EXISTS] query on
    [information_schema.tables]; any exception gives [False]. *)
Definition check_table_exists (rt : runtime) (db : database)
    (table_name : string) : bool :=
  match fst (connect rt db) with
  | Return _ => bool_decide (is_Some (db_tables db !! table_name))
  | Raise _ => false
  end.

(** [str.lower] on ASCII text. *)
Definition ascii_lower (c : ascii) : ascii :=
  if between "A" "Z" c then ascii_of_nat (nat_of_ascii c + 32) else c.

Fixpoint str_lower (s : string) : string :=
  match s with
  | EmptyString => EmptyString
  | String c s' => String (ascii_lower c) (str_lower s')
  end.

(** [main]: [response] is what the user types at the prompt.  The two
    reads of the file for the preview are outside any [try]. *)
Definition main (rt : runtime) (fs : gmap string file) (db : database)
    (response : string) : outcome unit * database :=
  let pg_success := test_postgresql_connection rt db in
  let sqlalchemy_success := test_sqlalchemy_connection rt db in
  if negb (pg_success && sqlalchemy_success) then (Return tt, db)
  else
    let argo_file := "ARGO_2019.csv" in
    match fs !! argo_file with
    | Some f =>
        match (_ ← read_csv f; read_csv f) with
        | Raise e => (Raise e, db)
        | Return _ =>
            if String.eqb (str_lower response) "y"
            then (Return tt, snd (load_argo_data rt fs db argo_file "argo_data"))
            else (Return tt, db)
        end
    | None => (Return tt, db)
    end.

(** ** Vocabulary of the further statements *)

(** The dictionary returned for row [r]: each column with its value, or
    [None] where the row has NULL. *)
Definition plain_dict (r : row) : pydict :=
  ("datetime", match r_datetime r with Some t => PTime t | None => PNone end)
  :: ("lat", match r_lat r with Some q => PFloat q | None => PNone end)
  :: ("lon", match r_lon r with Some q => PFloat q | None => PNone end)
  :: ("mld", match r_mld r with Some q => PFloat q | None => PNone end)
  :: map (fun kc => (fst kc,
                     match snd kc with Some q => PFloat q | None => PNone end))
       (r_extra r).


(** The sum of the [record_count] fields of a list of dictionaries. *)
Definition record_count_sum (l : list pydict) : Z :=
  fold_right
    (fun d acc =>
       match dict_get "record_count" d with
       | Some (PInt c) => c + acc
       | _ => acc
       end) 0 l.

(** [strftime] writes year [y] as four digits that [%Y] reads back. *)
Definition year_text_ok (y : Z) : bool :=
  match zero_pad 4 y with
  | String a (String b (String c (String d EmptyString))) =>
      is_digit a && is_digit b && is_digit c && is_digit d
      && (1000 * digit_val a + 100 * digit_val b + 10 * digit_val c
          + digit_val d =? y)
  | _ => false
  end.

(** The years [0 .. 9999]. *)
Definition four_digit_years : list Z := map Z.of_nat (seq 0 (100 * 100)).


(** The total of the counts of a grouped result. *)
Definition sum_counts (g : list (option (Z * Z) * nat)) : nat :=
  fold_right (fun kc acc => (snd kc + acc)%nat) 0%nat g.


(** * Properties *)

(** ** Orders *)



(** [ts_leb] read as a lexicographic order on four integers. *)
Lemma ts_leb_spec (a b : datetime) :
  ts_leb a b = true <->
  let da := ts_date a in
  let db := ts_date b in
  d_year da < d_year db \/
  (d_year da = d_year db /\
   (d_month da < d_month db \/
    (d_month da = d_month db /\
     (d_day da < d_day db \/
      (d_day da = d_day db /\ ts_sec a <= ts_sec b))))).
Proof.
  unfold ts_leb, ts_compare, date_compare; cbv zeta.
  destruct (Z.compare_spec (d_year (ts_date a)) (d_year (ts_date b)));
    destruct (Z.compare_spec (d_month (ts_date a)) (d_month (ts_date b)));
    destruct (Z.compare_spec (d_day (ts_date a)) (d_day (ts_date b)));
    destruct (Z.compare_spec (ts_sec a) (ts_sec b));
    simpl; split; intros; try reflexivity; try discriminate; lia.
Qed.

Lemma ts_leb_total (a b : datetime) : ts_leb a b = true \/ ts_leb b a = true.
Proof. rewrite !ts_leb_spec; cbv zeta; lia. Qed.

Lemma ts_leb_trans (a b c : datetime) :
  ts_leb a b = true -> ts_leb b c = true -> ts_leb a c = true.
Proof. rewrite !ts_leb_spec; cbv zeta; lia. Qed.

Lemma ts_leb_refl (a : datetime) : ts_leb a a = true.
Proof. rewrite ts_leb_spec; cbv zeta; lia. Qed.





(** ** Insertion into a sorted list *)

Section InsertBy.

Context {A : Type} (leb : A -> A -> bool).
Hypothesis leb_total : forall x y, leb x y = true \/ leb y x = true.
Hypothesis leb_trans :
  forall x y z, leb x y = true -> leb y z = true -> leb x z = true.


Lemma insert_by_perm (x : A) (l : list A) :
  Permutation (insert_by leb x l) (x :: l).
Proof.
  induction l as [|y l IH]; simpl.
  - reflexivity.
  - destruct (leb x y).
    + reflexivity.
    + rewrite IH. apply perm_swap.
Qed.



Lemma isort_perm (l : list A) : Permutation (foldr (insert_by leb) [] l) l.
Proof.
  induction l as [|x l IH]; simpl; [reflexivity|].
  rewrite insert_by_perm. constructor. exact IH.
Qed.



End InsertBy.

(** ** How each operation runs *)

Section Runs.

Variable rt : runtime.

Lemma connect_execute {A : Type} (db : database) (s : stmt) (name : string)
    (q : list row -> outcome A) :
  (_ ← connect rt db; execute rt db s name q) = on_table rt db s name q.
Proof.
  unfold on_table, connect, execute, mbind, eff_bind.
  destruct (db_up db); simpl; [|reflexivity].
  destruct (db_tables db !! name); reflexivity.
Qed.

Lemma eff_bind_lift {A B : Type} (m : outcome A) (k : A -> eff B) :
  (lift m ≫= k) =
  match m with
  | Return a => k a
  | Raise e => (Raise e, [])
  end.
Proof.
  unfold lift, mbind, eff_bind. simpl.
  destruct m; [destruct (k a)|]; reflexivity.
Qed.

Lemma eff_bind_run {A B : Type} (r : outcome A) (l : list stmt) (k : A -> eff B) :
  (((r, l) : eff A) ≫= k) =
  match r with
  | Return a => (fst (k a), (l ++ snd (k a))%list)
  | Raise e => (Raise e, l)
  end.
Proof. reflexivity. Qed.

Lemma eff_try_run {A : Type} (r : outcome A) (l : list stmt) (h : exn -> eff A) :
  eff_try ((r, l) : eff A) h =
  match r with
  | Return a => (Return a, l)
  | Raise e => (fst (h e), (l ++ snd (h e))%list)
  end.
Proof. unfold eff_try. simpl. destruct r; reflexivity. Qed.

(** A handler that only builds an envelope turns every outcome of the
    [try] block into a returned envelope. *)
Lemma eff_try_returns {A : Type} (m : eff A) (h : exn -> A) :
  exists a, fst (eff_try m (fun e => mret (h e))) = Return a
            /\ (forall e, fst m = Raise e -> a = h e)
            /\ (forall x, fst m = Return x -> a = x).
Proof.
  destruct m as [[x|e] l]; rewrite eff_try_run; simpl.
  - exists x. repeat split; congruence.
  - exists (h e). repeat split; congruence.
Qed.

Lemma sample_data_try_run (self : OceanDataQuery) (db : database) (limit : Z) :
  sample_data_try rt self db limit =
  match check_limit limit 1000 "Limit must be between 1 and 1000" with
  | Raise e => (Raise e, [])
  | Return _ =>
      on_table rt db SelectSample (table_name self)
        (fun rows =>
           let records := nan_to_none (to_dict_records (sql_sample limit rows)) in
           Return (_format_response rt (Records records) true
                     ("Retrieved " ++ str_nat (length records) ++ " sample records")
                     (Some (MetaSample limit (length records) (columns_of records)))))
  end.
Proof.
  unfold sample_data_try. rewrite eff_bind_lift.
  destruct (check_limit _ _ _); [|reflexivity].
  rewrite connect_execute. unfold on_table.
  destruct (db_up db); [|reflexivity].
  destruct (db_tables db !! table_name self); reflexivity.
Qed.

Lemma data_count_try_run (self : OceanDataQuery) (db : database) :
  data_count_try rt self db =
  on_table rt db SelectCount (table_name self)
    (fun rows =>
       Return (_format_response rt (Count (sql_count rows)) true
                 ("Total records in " ++ table_name self ++ ": "
                  ++ format_thousands (Z.to_nat (sql_count rows)))
                 (Some (MetaCount (table_name self))))).
Proof.
  unfold data_count_try. rewrite connect_execute. unfold on_table.
  destruct (db_up db); [|reflexivity].
  destruct (db_tables db !! table_name self); reflexivity.
Qed.

Lemma location_try_run (self : OceanDataQuery) (db : database)
    (lat_range lon_range : range_arg) (limit : Z) :
  location_try rt self db lat_range lon_range limit =
  match _validate_coordinates rt lat_range lon_range with
  | Raise e => (Raise e, [])
  | Return _ =>
  match check_limit limit 10000 "Limit must be between 1 and 10,000" with
  | Raise e => (Raise e, [])
  | Return _ =>
  match unpack lat_range with
  | Raise e => (Raise e, [])
  | Return lat =>
  match unpack lon_range with
  | Raise e => (Raise e, [])
  | Return lon =>
      on_table rt db SelectByLocation (table_name self)
        (fun rows =>
           let records :=
             nan_to_none (to_dict_records
                            (sql_by_location (fst lat) (snd lat) (fst lon)
                               (snd lon) limit rows)) in
           Return (_format_response rt (Records records) true
                     ("Retrieved " ++ str_nat (length records)
                      ++ " records for location query")
                     (Some (MetaLocation lat_range lon_range limit
                              (length records) (columns_of records)))))
  end end end end.
Proof.
  unfold location_try. rewrite eff_bind_lift.
  destruct (_validate_coordinates _ _ _); [|reflexivity].
  rewrite eff_bind_lift. destruct (check_limit _ _ _); [|reflexivity].
  rewrite eff_bind_lift. destruct (unpack lat_range); [|reflexivity].
  rewrite eff_bind_lift. destruct (unpack lon_range); [|reflexivity].
  rewrite connect_execute. unfold on_table.
  destruct (db_up db); [|reflexivity].
  destruct (db_tables db !! table_name self); reflexivity.
Qed.

Lemma date_range_try_run (self : OceanDataQuery) (db : database)
    (start_date end_date : date_arg) (limit : Z) :
  date_range_try rt self db start_date end_date limit =
  match _validate_dates rt start_date end_date with
  | Raise e => (Raise e, [])
  | Return dates =>
  match check_limit limit 10000 "Limit must be between 1 and 10,000" with
  | Raise e => (Raise e, [])
  | Return _ =>
      on_table rt db SelectByDate (table_name self)
        (fun rows =>
           match sql_by_date rt (fst dates) (snd dates) limit rows with
           | Raise e => Raise e
           | Return df =>
               let records := nan_to_none (to_dict_records df) in
               Return (_format_response rt (Records records) true
                         ("Retrieved " ++ str_nat (length records)
                          ++ " records for date range " ++ fst dates
                          ++ " to " ++ snd dates)
                         (Some (MetaDateRange (fst dates) (snd dates) limit
                                  (length records) (columns_of records))))
           end)
  end end.
Proof.
  unfold date_range_try. rewrite eff_bind_lift.
  destruct (_validate_dates _ _ _) as [dates|]; [|reflexivity].
  cbv zeta. rewrite eff_bind_lift.
  destruct (check_limit _ _ _); [|reflexivity].
  rewrite connect_execute. unfold on_table.
  destruct (db_up db); [|reflexivity].
  destruct (db_tables db !! table_name self) as [rows|]; [|reflexivity].
  rewrite eff_bind_run.
  destruct (sql_by_date rt (fst dates) (snd dates) limit rows); reflexivity.
Qed.

Lemma data_summary_try_run (self : OceanDataQuery) (db : database) :
  data_summary_try rt self db =
  if db_up db then
    match db_tables db !! table_name self with
    | Some rows =>
        (Return (_format_response rt
                   (Summary (format_summary_data (sql_summary rows)
                               (sql_temporal rows)))
                   true "Dataset summary generated successfully"
                   (Some (MetaSummary (now_iso rt) (table_name self)))),
         [SelectSummary; SelectTemporal])
    | None =>
        (Raise (MkExn ProgrammingError (driver_text rt ProgrammingError)),
         [SelectSummary])
    end
  else (Raise (MkExn OperationalError (driver_text rt OperationalError)), []).
Proof.
  unfold data_summary_try, connect, execute.
  destruct (db_up db); [|reflexivity].
  destruct (db_tables db !! table_name self); reflexivity.
Qed.

Lemma _connect_run (db : database) :
  _connect rt db =
  if db_up db then (Return tt, [SelectOne])
  else (Raise (error ("Failed to connect to database: "
                      ++ driver_text rt OperationalError)), []).
Proof. unfold _connect, connect. destruct (db_up db); reflexivity. Qed.

End Runs.

(** ** Exceptions stop at the operation boundary *)

Section Boundary.

Variable rt : runtime.

Lemma eff_try_handled (body : eff envelope) (zero : payload) (prefix : string) :
  handled body
    (eff_try body
       (fun e => mret (_format_response rt zero false (prefix ++ exn_text e) None)))
    zero prefix.
Proof.
  destruct (eff_try_returns body
              (fun e => _format_response rt zero false (prefix ++ exn_text e) None))
    as (env & Hret & Hraise & _).
  exists env. split; [exact Hret|].
  intros e He. rewrite (Hraise e He). repeat split.
Qed.

Lemma handled_failure (body op : eff envelope) (zero : payload) (prefix : string) :
  handled body op zero prefix ->
  (exists e, fst body = Raise e) ->
  exists env, fst op = Return env /\ failure_envelope zero env.
Proof.
  intros (env & Hret & Hraise) (e & He).
  exists env. split; [exact Hret|]. apply (Hraise e He).
Qed.

Lemma on_table_fails {A : Type} (db : database) (s : stmt) (name : string)
    (q : list row -> outcome A) :
  db_fails db name -> exists e, fst (on_table rt db s name q) = Raise e.
Proof.
  unfold on_table. intros [H|H].
  - rewrite H. eauto.
  - rewrite H. destruct (db_up db); eauto.
Qed.

Lemma sample_data_try_fails (self : OceanDataQuery) (db : database) (limit : Z) :
  db_fails db (table_name self) ->
  exists e, fst (sample_data_try rt self db limit) = Raise e.
Proof.
  intros H. rewrite sample_data_try_run.
  destruct (check_limit _ _ _); [|simpl; eauto].
  apply on_table_fails, H.
Qed.

Lemma data_count_try_fails (self : OceanDataQuery) (db : database) :
  db_fails db (table_name self) ->
  exists e, fst (data_count_try rt self db) = Raise e.
Proof. intros H. rewrite data_count_try_run. apply on_table_fails, H. Qed.

Lemma location_try_fails (self : OceanDataQuery) (db : database)
    (lat_range lon_range : range_arg) (limit : Z) :
  db_fails db (table_name self) ->
  exists e, fst (location_try rt self db lat_range lon_range limit) = Raise e.
Proof.
  intros H. rewrite location_try_run.
  destruct (_validate_coordinates _ _ _); [|simpl; eauto].
  destruct (check_limit _ _ _); [|simpl; eauto].
  destruct (unpack lat_range); [|simpl; eauto].
  destruct (unpack lon_range); [|simpl; eauto].
  apply on_table_fails, H.
Qed.

Lemma date_range_try_fails (self : OceanDataQuery) (db : database)
    (start_date end_date : date_arg) (limit : Z) :
  db_fails db (table_name self) ->
  exists e, fst (date_range_try rt self db start_date end_date limit) = Raise e.
Proof.
  intros H. rewrite date_range_try_run.
  destruct (_validate_dates _ _ _); [|simpl; eauto].
  destruct (check_limit _ _ _); [|simpl; eauto].
  apply on_table_fails, H.
Qed.

Lemma data_summary_try_fails (self : OceanDataQuery) (db : database) :
  db_fails db (table_name self) ->
  exists e, fst (data_summary_try rt self db) = Raise e.
Proof.
  intros H. rewrite data_summary_try_run. destruct H as [H|H]; rewrite H.
  - eauto.
  - destruct (db_up db); eauto.
Qed.

(** C1.  None of the five public operations raises: each returns an
    envelope for every input and every database state, and when its
    [try] block raises, the envelope has [success] false, the empty or
    zeroed [data] of the operation and the exception text in [message];
    a server that is down or lacks the table is such a failure.  Only the
    constructor raises: [OceanDataQueryError] when the [SELECT 1] probe
    cannot run, and it returns the instance otherwise. *)
Theorem public_operations_never_raise
    (self : OceanDataQuery) (db : database) (limit : Z)
    (lat_range lon_range : range_arg) (start_date end_date : date_arg) :
  (handled (sample_data_try rt self db limit)
     (get_sample_data rt self db limit)
     (Records []) "Error retrieving sample data: "
   /\ handled (data_count_try rt self db)
        (get_data_count rt self db)
        (Count 0) "Error counting records: "
   /\ handled (location_try rt self db lat_range lon_range limit)
        (query_by_location rt self db lat_range lon_range limit)
        (Records []) "Error querying by location: "
   /\ handled (date_range_try rt self db start_date end_date limit)
        (query_by_date_range rt self db start_date end_date limit)
        (Records []) "Error querying by date range: "
   /\ handled (data_summary_try rt self db)
        (get_data_summary rt self db)
        EmptyDict "Error generating data summary: ")
  /\ (db_fails db (table_name self) ->
      (exists env, fst (get_sample_data rt self db limit) = Return env
                   /\ failure_envelope (Records []) env)
      /\ (exists env, fst (get_data_count rt self db) = Return env
                      /\ failure_envelope (Count 0) env)
      /\ (exists env, fst (query_by_location rt self db lat_range lon_range limit)
                      = Return env
                      /\ failure_envelope (Records []) env)
      /\ (exists env, fst (query_by_date_range rt self db start_date end_date limit)
                      = Return env
                      /\ failure_envelope (Records []) env)
      /\ (exists env, fst (get_data_summary rt self db) = Return env
                      /\ failure_envelope EmptyDict env))
  /\ (db_up db = false ->
      fst (__init__ rt (table_name self) db)
      = Raise (MkExn OceanDataQueryError
                 ("Failed to connect to database: "
                  ++ driver_text rt OperationalError)))
  /\ (db_up db = true ->
      fst (__init__ rt (table_name self) db) = Return self).
Proof.
  assert (H5 :
    handled (sample_data_try rt self db limit)
      (get_sample_data rt self db limit)
      (Records []) "Error retrieving sample data: "
    /\ handled (data_count_try rt self db)
         (get_data_count rt self db)
         (Count 0) "Error counting records: "
    /\ handled (location_try rt self db lat_range lon_range limit)
         (query_by_location rt self db lat_range lon_range limit)
         (Records []) "Error querying by location: "
    /\ handled (date_range_try rt self db start_date end_date limit)
         (query_by_date_range rt self db start_date end_date limit)
         (Records []) "Error querying by date range: "
    /\ handled (data_summary_try rt self db)
         (get_data_summary rt self db)
         EmptyDict "Error generating data summary: ").
  { repeat split; apply eff_try_handled. }
  split; [exact H5|].
  destruct H5 as (H1 & H2 & H3 & H4 & H5).
  split; [|split].
  - intros Hdb. repeat split.
    + eapply handled_failure; [exact H1|]. apply sample_data_try_fails, Hdb.
    + eapply handled_failure; [exact H2|]. apply data_count_try_fails, Hdb.
    + eapply handled_failure; [exact H3|]. apply location_try_fails, Hdb.
    + eapply handled_failure; [exact H4|]. apply date_range_try_fails, Hdb.
    + eapply handled_failure; [exact H5|]. apply data_summary_try_fails, Hdb.
  - intros Hdown. unfold __init__. rewrite _connect_run, Hdown. reflexivity.
  - intros Hup. unfold __init__. rewrite _connect_run, Hup.
    destruct self. reflexivity.
Qed.

End Boundary.

Lemma public_operations_never_raise_witness :
  (exists env, fst (get_sample_data demo_rt demo_service down_db 5) = Return env
               /\ failure_envelope (Records []) env)
  /\ fst (__init__ demo_rt "argo_data" down_db)
     = Raise (MkExn OceanDataQueryError
                "Failed to connect to database: driver error")
  /\ fst (__init__ demo_rt "argo_data" demo_db) = Return demo_service.
Proof.
  destruct (public_operations_never_raise demo_rt demo_service down_db 5
              None None (DStr "") (DStr ""))
    as (_ & Hfail & Hdown & _).
  destruct (public_operations_never_raise demo_rt demo_service demo_db 5
              None None (DStr "") (DStr ""))
    as (_ & _ & _ & Hup).
  split; [|split].
  - apply Hfail. left. reflexivity.
  - apply Hdown. reflexivity.
  - apply Hup. reflexivity.
Defined.

(** ** Limits and coordinate ranges *)

Lemma check_limit_out (limit bound : Z) (msg : string) :
  limit < 1 \/ bound < limit ->
  check_limit limit bound msg = Raise (error msg).
Proof.
  intros H. unfold check_limit.
  destruct (limit <=? 0) eqn:E1; [reflexivity|].
  destruct (limit >? bound) eqn:E2; [reflexivity|]. lia.
Qed.

Lemma check_limit_in (limit bound : Z) (msg : string) :
  1 <= limit <= bound -> check_limit limit bound msg = Return tt.
Proof.
  intros H. unfold check_limit.
  destruct (limit <=? 0) eqn:E1; [lia|].
  destruct (limit >? bound) eqn:E2; [lia|]. reflexivity.
Qed.

Lemma length_records (df : list row) :
  length (nan_to_none (to_dict_records df)) = length df.
Proof. unfold nan_to_none, to_dict_records. rewrite !length_map. reflexivity. Qed.

Lemma length_sql_limit {A : Type} (limit : Z) (l : list A) :
  (length (sql_limit limit l) <= Z.to_nat limit)%nat.
Proof. unfold sql_limit. rewrite length_take. lia. Qed.

(** Every returned dictionary is the dictionary of a row of the result,
    with missing values replaced by [None]. *)
Lemma In_records (df : list row) (d : pydict) :
  In d (nan_to_none (to_dict_records df)) ->
  exists r, In r df
            /\ d = map (fun kv => (fst kv, none_if_na (snd kv))) (row_dict df r).
Proof.
  unfold nan_to_none, to_dict_records. rewrite map_map.
  intros H. apply in_map_iff in H. destruct H as (r & Hd & Hr).
  exists r. split; [exact Hr|]. symmetry. exact Hd.
Qed.

(** C4.  A limit outside [1, 1000] makes [get_sample_data] return the
    failure envelope with no records; a limit inside passes the limit
    check, and the returned list is never longer than the limit. *)
Theorem sample_limit_enforced (rt : runtime) (self : OceanDataQuery)
    (db : database) (limit : Z) :
  (limit < 1 \/ 1000 < limit ->
   exists env, fst (get_sample_data rt self db limit) = Return env
               /\ failure_envelope (Records []) env)
  /\ (1 <= limit <= 1000 ->
      check_limit limit 1000 "Limit must be between 1 and 1000" = Return tt
      /\ exists env l, fst (get_sample_data rt self db limit) = Return env
                       /\ data env = Records l
                       /\ Z.of_nat (length l) <= limit).
Proof.
  split.
  - intros Hout. unfold get_sample_data. rewrite sample_data_try_run.
    rewrite (check_limit_out _ _ _ Hout), eff_try_run. simpl.
    eexists. split; [reflexivity|]. split; reflexivity.
  - intros Hin. split; [apply check_limit_in, Hin|].
    unfold get_sample_data. rewrite sample_data_try_run.
    rewrite (check_limit_in _ _ _ Hin). unfold on_table.
    destruct (db_up db).
    + destruct (db_tables db !! table_name self) as [rows|];
        rewrite eff_try_run; simpl.
      * eexists _, _. split; [reflexivity|]. split; [reflexivity|].
        rewrite length_records. unfold sql_sample.
        pose proof (length_sql_limit limit (order_by_datetime rows)). lia.
      * eexists _, _. split; [reflexivity|]. split; [reflexivity|]. simpl. lia.
    + rewrite eff_try_run. simpl.
      eexists _, _. split; [reflexivity|]. split; [reflexivity|]. simpl. lia.
Qed.

Lemma sample_limit_enforced_witness :
  (exists env, fst (get_sample_data demo_rt demo_service demo_db 1001) = Return env
               /\ failure_envelope (Records []) env)
  /\ (exists env, fst (get_sample_data demo_rt demo_service demo_db 0) = Return env
                  /\ failure_envelope (Records []) env)
  /\ (exists env l, fst (get_sample_data demo_rt demo_service demo_db 3) = Return env
                    /\ data env = Records l /\ Z.of_nat (length l) <= 3).
Proof.
  split; [|split].
  - apply (sample_limit_enforced demo_rt demo_service demo_db 1001). lia.
  - apply (sample_limit_enforced demo_rt demo_service demo_db 0). lia.
  - apply (sample_limit_enforced demo_rt demo_service demo_db 3). lia.
Defined.

Lemma in_range_bad (bound : Q) (r : pyfloat * pyfloat) :
  bad_range bound r -> in_range bound r = false.
Proof.
  destruct r as [lo hi]. unfold bad_range, in_range. intros H.
  apply not_true_is_false. intros E.
  apply andb_true_iff in E. destruct E as [E E3].
  apply andb_true_iff in E. destruct E as [E1 E2].
  destruct lo as [a| | |], hi as [b| | |]; simpl in *; try discriminate.
  apply Qle_bool_iff in E1, E2, E3.
  destruct H as [[H|H]|[[H|H]|H]];
    (eapply Qlt_not_le; [exact H|]); try assumption;
    eauto using Qle_trans.
Qed.

Lemma sql_between_spec (v : option Q) (lo hi : Q) :
  sql_between v (Fin lo) (Fin hi) = true ->
  exists x, v = Some x /\ (lo <= x)%Q /\ (x <= hi)%Q.
Proof.
  destruct v as [x|]; simpl; [|discriminate].
  intros H. apply andb_true_iff in H. destruct H as [H1 H2].
  apply Qle_bool_iff in H1, H2. eauto.
Qed.

(** C2.  A latitude range with a bound outside [-90, 90] or with
    [min > max], or such a longitude range for [-180, 180], makes
    [query_by_location] return the failure envelope with no records;
    for ranges inside the bounds and in order, every returned record has
    its [lat] within the latitude range and its [lon] within the
    longitude range. *)
Theorem location_ranges_enforced (rt : runtime) (self : OceanDataQuery)
    (db : database) (limit : Z) :
  (forall lat_range lon_range : pyfloat * pyfloat,
      bad_range 90 lat_range \/ bad_range 180 lon_range ->
      exists env,
        fst (query_by_location rt self db (Some lat_range) (Some lon_range) limit)
        = Return env
        /\ failure_envelope (Records []) env)
  /\ (forall min_lat max_lat min_lon max_lon : Q,
        (- (90) <= min_lat /\ min_lat <= max_lat /\ max_lat <= 90)%Q ->
        (- (180) <= min_lon /\ min_lon <= max_lon /\ max_lon <= 180)%Q ->
        exists env l,
          fst (query_by_location rt self db (Some (Fin min_lat, Fin max_lat))
                 (Some (Fin min_lon, Fin max_lon)) limit) = Return env
          /\ data env = Records l
          /\ forall d, In d l ->
               exists lat lon,
                 dict_get "lat" d = Some (PFloat lat)
                 /\ dict_get "lon" d = Some (PFloat lon)
                 /\ (min_lat <= lat /\ lat <= max_lat)%Q
                 /\ (min_lon <= lon /\ lon <= max_lon)%Q).
Proof.
  split.
  - intros lat_range lon_range Hbad.
    unfold query_by_location. rewrite location_try_run.
    assert (Hv : exists e, _validate_coordinates rt (Some lat_range)
                             (Some lon_range) = Raise e).
    { unfold _validate_coordinates.
      destruct (in_range 90 lat_range) eqn:Elat; simpl; [|eauto].
      destruct Hbad as [Hbad|Hbad].
      - rewrite (in_range_bad _ _ Hbad) in Elat. discriminate.
      - rewrite (in_range_bad _ _ Hbad). simpl. eauto. }
    destruct Hv as (e & ->). rewrite eff_try_run. simpl.
    eexists. split; [reflexivity|]. split; reflexivity.
  - intros min_lat max_lat min_lon max_lon _ _.
    unfold query_by_location. rewrite location_try_run.
    destruct (_validate_coordinates _ _ _);
      [|rewrite eff_try_run; simpl; eexists _, _;
        split; [reflexivity|]; split; [reflexivity|]; intros d []].
    destruct (check_limit _ _ _);
      [|rewrite eff_try_run; simpl; eexists _, _;
        split; [reflexivity|]; split; [reflexivity|]; intros d []].
    simpl unpack. cbv iota. unfold on_table.
    destruct (db_up db);
      [|rewrite eff_try_run; simpl; eexists _, _;
        split; [reflexivity|]; split; [reflexivity|]; intros d []].
    destruct (db_tables db !! table_name self) as [rows|];
      [|rewrite eff_try_run; simpl; eexists _, _;
        split; [reflexivity|]; split; [reflexivity|]; intros d []].
    rewrite eff_try_run. cbv zeta. simpl fst. simpl snd.
    eexists _, _. split; [reflexivity|]. split; [reflexivity|].
    intros d Hd. apply In_records in Hd. destruct Hd as (r & Hr & ->).
    unfold sql_by_location, sql_limit in Hr.
    apply list_elem_of_In, elem_of_take in Hr.
    destruct Hr as (i & Hr & _).
    apply list_elem_of_lookup_2, list_elem_of_In in Hr.
    unfold order_by_datetime in Hr.
    eapply Permutation_in in Hr; [|apply isort_perm].
    apply filter_In in Hr. destruct Hr as [_ Hr].
    apply andb_true_iff in Hr. destruct Hr as [Hlat Hlon].
    apply sql_between_spec in Hlat, Hlon.
    destruct Hlat as (x & Ex & Hx1 & Hx2).
    destruct Hlon as (y & Ey & Hy1 & Hy2).
    exists x, y. unfold row_dict. simpl. rewrite Ex, Ey. simpl.
    repeat split; assumption.
Qed.

Lemma location_ranges_enforced_witness :
  (exists env,
      fst (query_by_location demo_rt demo_service demo_db
             (Some (Fin (-100), Fin 100)) (Some (Fin 60, Fin 80)) 5) = Return env
      /\ failure_envelope (Records []) env)
  /\ (exists env l,
        fst (query_by_location demo_rt demo_service demo_db
               (Some (Fin (-10), Fin 10)) (Some (Fin 60, Fin 80)) 5) = Return env
        /\ data env = Records l
        /\ forall d, In d l ->
             exists lat lon,
               dict_get "lat" d = Some (PFloat lat)
               /\ dict_get "lon" d = Some (PFloat lon)
               /\ (-10 <= lat /\ lat <= 10)%Q
               /\ (60 <= lon /\ lon <= 80)%Q).
Proof.
  split.
  - apply (location_ranges_enforced demo_rt demo_service demo_db 5).
    left. left. simpl. left. reflexivity.
  - apply (location_ranges_enforced demo_rt demo_service demo_db 5);
      unfold Qle; simpl; lia.
Defined.

(** The in-bounds query of the witness does return rows. *)
Example location_query_demo :
  exists env l,
    fst (query_by_location demo_rt demo_service demo_db
           (Some (Fin (-10), Fin 10)) (Some (Fin 60, Fin 80)) 5) = Return env
    /\ success env = true /\ data env = Records l /\ length l = 2%nat.
Proof. eexists _, _. vm_compute. repeat split. Qed.

(** ** Date arguments *)

Section Dates.

Variable rt : runtime.

Lemma strptime_raises_ValueError (s : string) (e : exn) :
  strptime rt s = Raise e -> exn_cls e = ValueError.
Proof.
  unfold strptime.
  destruct (match_ymd s) as [[d [|c rest]]|].
  - destruct (valid_date d); [discriminate|].
    destruct (d_year d =? 0); intros [= <-]; reflexivity.
  - intros [= <-]. reflexivity.
  - intros [= <-]. reflexivity.
Qed.









End Dates.


(** [strptime] reads one-digit months and days: the format directives
    do not require two digits. *)
Example strptime_short_fields :
  strptime demo_rt "2019-1-5" = Return (midnight (MkDate 2019 1 5)).
Proof. reflexivity. Qed.

(** ** Order of the returned rows *)










(** ** Missing values in the returned records *)

Lemma nan_to_none_no_nan (l : list pydict) : no_nan (nan_to_none l).
Proof.
  unfold no_nan, nan_to_none. intros d Hd k v Hv.
  apply in_map_iff in Hd. destruct Hd as (d0 & <- & _).
  apply in_map_iff in Hv. destruct Hv as ([k0 v0] & [= <- <-] & _).
  simpl. unfold none_if_na. destruct v0; simpl; discriminate.
Qed.

(** The three row-returning operations replace every [nan] by [None]. *)
Lemma row_operations_no_nan (rt : runtime) (self : OceanDataQuery)
    (db : database) (limit : Z) (lat_range lon_range : range_arg)
    (start_date end_date : date_arg) :
  (exists env l,
      fst (get_sample_data rt self db limit) = Return env
      /\ data env = Records l /\ no_nan l)
  /\ (exists env l,
        fst (query_by_location rt self db lat_range lon_range limit) = Return env
        /\ data env = Records l /\ no_nan l)
  /\ (exists env l,
        fst (query_by_date_range rt self db start_date end_date limit) = Return env
        /\ data env = Records l /\ no_nan l).
Proof.
  assert (Hfail : forall (zero_msg : string),
             exists env l,
               Return (_format_response rt (Records []) false zero_msg None)
               = Return env
               /\ data env = Records l /\ no_nan l).
  { intros m. eexists _, _. split; [reflexivity|].
    split; [reflexivity|]. intros d []. }
  split; [|split].
  - unfold get_sample_data. rewrite sample_data_try_run.
    destruct (check_limit _ _ _); [|rewrite eff_try_run; apply Hfail].
    unfold on_table.
    destruct (db_up db); [|rewrite eff_try_run; apply Hfail].
    destruct (db_tables db !! table_name self) as [rows|];
      [|rewrite eff_try_run; apply Hfail].
    rewrite eff_try_run. eexists _, _. split; [reflexivity|].
    split; [reflexivity|]. apply nan_to_none_no_nan.
  - unfold query_by_location. rewrite location_try_run.
    destruct (_validate_coordinates _ _ _); [|rewrite eff_try_run; apply Hfail].
    destruct (check_limit _ _ _); [|rewrite eff_try_run; apply Hfail].
    destruct (unpack lat_range); [|rewrite eff_try_run; apply Hfail].
    destruct (unpack lon_range); [|rewrite eff_try_run; apply Hfail].
    unfold on_table.
    destruct (db_up db); [|rewrite eff_try_run; apply Hfail].
    destruct (db_tables db !! table_name self) as [rows|];
      [|rewrite eff_try_run; apply Hfail].
    rewrite eff_try_run. eexists _, _. split; [reflexivity|].
    split; [reflexivity|]. apply nan_to_none_no_nan.
  - unfold query_by_date_range. rewrite date_range_try_run.
    destruct (_validate_dates _ _ _) as [dates|];
      [|rewrite eff_try_run; apply Hfail].
    destruct (check_limit _ _ _); [|rewrite eff_try_run; apply Hfail].
    unfold on_table.
    destruct (db_up db); [|rewrite eff_try_run; apply Hfail].
    destruct (db_tables db !! table_name self) as [rows|];
      [|rewrite eff_try_run; apply Hfail].
    destruct (sql_by_date rt (fst dates) (snd dates) limit rows);
      [|rewrite eff_try_run; apply Hfail].
    rewrite eff_try_run. eexists _, _. split; [reflexivity|].
    split; [reflexivity|]. apply nan_to_none_no_nan.
Qed.

(** C6.  On a table that has a row with a NULL timestamp next to dated
    rows, the [temporal_distribution] list of [get_data_summary] holds
    the float [nan] under [year] and [month]: that list is returned as
    [to_dict] gives it, without the replacement by [None] that the
    row-returning operations apply. *)
Theorem temporal_distribution_keeps_nan :
  exists env s,
    fst (get_data_summary demo_rt demo_service demo_db) = Return env
    /\ success env = true
    /\ data env = Summary s
    /\ In [("year", PNaN); ("month", PNaN); ("record_count", PInt 1)]
         (temporal_distribution s)
    /\ ~ no_nan (temporal_distribution s).
Proof.
  eexists _, _. split; [vm_compute; reflexivity|].
  split; [reflexivity|]. split; [reflexivity|].
  assert (Hin : In [("year", PNaN); ("month", PNaN); ("record_count", PInt 1)]
                  (temporal_to_dict (sql_temporal demo_rows))).
  { vm_compute. auto. }
  split; [exact Hin|].
  intros H. apply (H _ Hin "year" PNaN); [left; reflexivity|reflexivity].
Qed.

(** ** Row counts by year and month *)





















(** ** Summary statistics *)



Lemma int_or_zero_id (x : Z) : int_or_zero x = x.
Proof. unfold int_or_zero. destruct (x =? 0) eqn:E; lia. Qed.

(** The truth test [if x] also sends an aggregate equal to zero to
    null. *)
Lemma float_or_none_zero : float_or_none (Some 0%Q) = PNone.
Proof. reflexivity. Qed.




(** On the demo table the smallest depth of the matching rows is zero,
    and the summary reports null for it. *)
Example summary_zero_minimum_demo :
  sql_min (map r_mld (List.filter mld_not_null demo_rows)) = Some 0%Q
  /\ exists env s,
       fst (get_data_summary demo_rt demo_service demo_db) = Return env
       /\ data env = Summary s /\ mld_minimum s = PNone.
Proof. split; [reflexivity|]. eexists _, _. vm_compute. repeat split. Qed.

(** ** Loading and counting *)




(** ** The summary counts fewer rows than the count *)


Lemma filter_length_le {A : Type} (f : A -> bool) (l : list A) :
  (length (List.filter f l) <= length l)%nat.
Proof.
  induction l as [|x l IH]; simpl; [lia|]. destruct (f x); simpl; lia.
Qed.




(** * Further properties of the loader *)

Lemma load_argo_data_run (rt : runtime) (fs : gmap string file) (db : database)
    (csv_file_path table_name : string) :
  load_argo_data rt fs db csv_file_path table_name =
  match fs !! csv_file_path with
  | Some (CsvFile rows) =>
      if db_up db
      then (true, MkDb (db_up db) (<[table_name := rows]> (db_tables db)))
      else (false, db)
  | _ => (false, db)
  end.
Proof.
  unfold load_argo_data, to_sql.
  destruct (fs !! csv_file_path) as [[rows|why]|]; simpl; try reflexivity.
  destruct (db_up db); reflexivity.
Qed.



(** X2.  A load replaces the table: what the table held before, even
    another file loaded just before, does not show in the result; so a
    second load of the same file changes nothing. *)
Theorem load_replaces (rt : runtime) (fs : gmap string file) (db : database)
    (path1 path2 table_name : string) (rows1 rows2 : list row) :
  fs !! path1 = Some (CsvFile rows1) ->
  fs !! path2 = Some (CsvFile rows2) ->
  db_up db = true ->
  load_argo_data rt fs
    (snd (load_argo_data rt fs db path1 table_name)) path2 table_name
  = load_argo_data rt fs db path2 table_name
  /\ db_tables (snd (load_argo_data rt fs db path2 table_name)) !! table_name
     = Some rows2.
Proof.
  intros H1 H2 Hup. rewrite !load_argo_data_run, H1, H2, Hup. simpl.
  rewrite insert_insert_eq. split; [reflexivity|]. apply lookup_insert_eq.
Qed.

Lemma load_replaces_witness :
  load_argo_data demo_rt demo_fs
    (snd (load_argo_data demo_rt demo_fs demo_db "ARGO_2019.csv" "argo_data"))
    "ARGO_2019.csv" "argo_data"
  = load_argo_data demo_rt demo_fs demo_db "ARGO_2019.csv" "argo_data".
Proof.
  apply (load_replaces demo_rt demo_fs demo_db "ARGO_2019.csv" "ARGO_2019.csv"
           "argo_data" demo_rows demo_rows); reflexivity.
Defined.




(** X5.  After a load that returned true the table exists for
    [check_table_exists]; with the server down the check answers false
    whatever tables there are. *)
Theorem check_table_exists_after_load (rt : runtime) (fs : gmap string file)
    (db : database) (csv_file_path table_name : string) :
  (fst (load_argo_data rt fs db csv_file_path table_name) = true ->
   check_table_exists rt
     (snd (load_argo_data rt fs db csv_file_path table_name)) table_name = true)
  /\ (db_up db = false -> check_table_exists rt db table_name = false).
Proof.
  split.
  - rewrite load_argo_data_run.
    destruct (fs !! csv_file_path) as [[rows|why]|]; simpl; try discriminate.
    destruct (db_up db) eqn:Hup; simpl; [|discriminate].
    intros _. unfold check_table_exists, connect. simpl.
    apply bool_decide_eq_true_2. rewrite lookup_insert_eq. eauto.
  - intros Hdown. unfold check_table_exists, connect. rewrite Hdown. reflexivity.
Qed.

Lemma check_table_exists_after_load_witness :
  check_table_exists demo_rt
    (snd (load_argo_data demo_rt demo_fs bare_db "ARGO_2019.csv" "argo_data"))
    "argo_data" = true
  /\ check_table_exists demo_rt down_db "argo_data" = false.
Proof.
  destruct (check_table_exists_after_load demo_rt demo_fs bare_db
              "ARGO_2019.csv" "argo_data") as [Hload _].
  destruct (check_table_exists_after_load demo_rt demo_fs down_db
              "ARGO_2019.csv" "argo_data") as [_ Hdown].
  split; [apply Hload|apply Hdown]; reflexivity.
Defined.

(** * Further properties of [main] and of the convenience functions *)

Lemma ascii_lower_y (c : ascii) :
  ascii_lower c = "y"%char <-> c = "y"%char \/ c = "Y"%char.
Proof.
  destruct c as [[] [] [] [] [] [] [] []]; vm_compute;
    (split; [intros H; try discriminate H; auto
            |intros [H|H]; try discriminate H; reflexivity]).
Qed.

Lemma str_lower_y (s : string) :
  str_lower s = "y" <-> s = "y" \/ s = "Y".
Proof.
  destruct s as [|c [|c' s']]; simpl.
  - split; [discriminate|intros [H|H]; discriminate].
  - split.
    + intros [= H]. apply ascii_lower_y in H. destruct H as [->| ->]; auto.
    + intros [[= ->]|[= ->]]; reflexivity.
  - split; [discriminate|intros [H|H]; discriminate].
Qed.

(** X6.  [main] loads the file only when the server is reachable, the
    file [ARGO_2019.csv] exists and parses, and the answer is [y] or
    [Y]: then table [argo_data] holds the rows of the file.  In every
    other case the database is as it was.  A file that exists and does
    not parse makes [main] raise, since the preview reads it outside any
    [try]; otherwise [main] returns. *)
Theorem main_loads_on_yes (rt : runtime) (fs : gmap string file) (db : database)
    (response : string) :
  (forall rows,
      db_up db = true -> fs !! "ARGO_2019.csv" = Some (CsvFile rows) ->
      response = "y" \/ response = "Y" ->
      main rt fs db response
      = (Return tt, MkDb (db_up db) (<["argo_data" := rows]> (db_tables db))))
  /\ (~ (db_up db = true
         /\ (exists rows, fs !! "ARGO_2019.csv" = Some (CsvFile rows))
         /\ (response = "y" \/ response = "Y")) ->
      snd (main rt fs db response) = db)
  /\ (forall why,
        db_up db = true -> fs !! "ARGO_2019.csv" = Some (NotCsv why) ->
        fst (main rt fs db response) = Raise (MkExn ValueError why))
  /\ (db_up db = false \/ (forall why, fs !! "ARGO_2019.csv" <> Some (NotCsv why)) ->
      fst (main rt fs db response) = Return tt).
Proof.
  unfold main, test_postgresql_connection, test_sqlalchemy_connection, connect.
  cbv zeta. rewrite load_argo_data_run.
  destruct (db_up db) eqn:Hup; simpl.
  - destruct (fs !! "ARGO_2019.csv") as [[rows|why]|] eqn:Hf; simpl.
    + destruct (String.eqb (str_lower response) "y") eqn:Hr.
      * apply String.eqb_eq in Hr. repeat split; try discriminate; simpl.
        -- intros rows' _ [= <-] _. reflexivity.
        -- intros Hn. exfalso. apply Hn. split; [reflexivity|].
           split; [eauto|]. apply str_lower_y, Hr.
      * apply String.eqb_neq in Hr. repeat split; try discriminate; simpl.
        -- intros rows' _ _ Hy. apply str_lower_y in Hy. contradiction.
    + repeat split; try discriminate; simpl.
      * intros why' _ [= <-]. reflexivity.
      * intros [H|H]; [discriminate|]. exfalso. apply (H why). reflexivity.
    + repeat split; discriminate.
  - repeat split; discriminate.
Qed.

Lemma main_loads_on_yes_witness :
  main demo_rt demo_fs bare_db "Y"
  = (Return tt, MkDb true {[ "argo_data" := demo_rows ]})
  /\ snd (main demo_rt demo_fs bare_db "yes") = bare_db
  /\ snd (main demo_rt demo_fs down_db "y") = down_db.
Proof.
  destruct (main_loads_on_yes demo_rt demo_fs bare_db "Y") as (Hyes & _).
  destruct (main_loads_on_yes demo_rt demo_fs bare_db "yes") as (_ & Hno & _).
  destruct (main_loads_on_yes demo_rt demo_fs down_db "y") as (_ & Hdown & _).
  split; [|split].
  - rewrite (Hyes demo_rows); [reflexivity|reflexivity|reflexivity|auto].
  - apply Hno. intros (_ & _ & [H|H]); discriminate.
  - apply Hdown. intros (H & _). discriminate.
Defined.

Lemma init_then (rt : runtime) (db : database) (name : string)
    (k : OceanDataQuery -> eff envelope) :
  (__init__ rt name db ≫= k) =
  if db_up db
  then (fst (k (MkService name)), SelectOne :: snd (k (MkService name)))
  else (Raise (error ("Failed to connect to database: "
                      ++ driver_text rt OperationalError)), []).
Proof.
  unfold __init__. rewrite _connect_run.
  destruct (db_up db); reflexivity.
Qed.

(** X7.  Unlike the methods, the module-level convenience functions
    raise: with the server down each of the five raises
    [OceanDataQueryError] from the constructor and sends nothing. *)
Theorem convenience_functions_raise (rt : runtime) (db : database)
    (table_name : string) (limit : Z) (lat_range lon_range : range_arg)
    (start_date end_date : date_arg) :
  db_up db = false ->
  let failed : eff envelope :=
    (Raise (MkExn OceanDataQueryError
              ("Failed to connect to database: "
               ++ driver_text rt OperationalError)), []) in
  Convenience.get_sample_data rt db limit table_name = failed
  /\ Convenience.get_data_count rt db table_name = failed
  /\ Convenience.query_by_location rt db lat_range lon_range limit table_name
     = failed
  /\ Convenience.query_by_date_range rt db start_date end_date limit table_name
     = failed
  /\ Convenience.get_data_summary rt db table_name = failed.
Proof.
  intros Hdown failed.
  unfold Convenience.get_sample_data, Convenience.get_data_count,
    Convenience.query_by_location, Convenience.query_by_date_range,
    Convenience.get_data_summary.
  rewrite !init_then, Hdown. repeat split.
Qed.

Lemma convenience_functions_raise_witness :
  Convenience.get_data_count demo_rt down_db "argo_data"
  = (Raise (MkExn OceanDataQueryError
              "Failed to connect to database: driver error"), []).
Proof.
  apply (convenience_functions_raise demo_rt down_db "argo_data" 5 None None
           (DStr "") (DStr "")).
  reflexivity.
Defined.

(** X8.  With the server reachable each convenience function returns
    what the method on a fresh query object returns, after the probe
    [SELECT 1] of the constructor. *)
Theorem convenience_functions_probe_then_call (rt : runtime) (db : database)
    (name : string) (limit : Z) (lat_range lon_range : range_arg)
    (start_date end_date : date_arg) :
  db_up db = true ->
  let self := MkService name in
  let probed (m : eff envelope) : eff envelope := (fst m, SelectOne :: snd m) in
  Convenience.get_sample_data rt db limit name
  = probed (get_sample_data rt self db limit)
  /\ Convenience.get_data_count rt db name
     = probed (get_data_count rt self db)
  /\ Convenience.query_by_location rt db lat_range lon_range limit name
     = probed (query_by_location rt self db lat_range lon_range limit)
  /\ Convenience.query_by_date_range rt db start_date end_date limit name
     = probed (query_by_date_range rt self db start_date end_date limit)
  /\ Convenience.get_data_summary rt db name
     = probed (get_data_summary rt self db).
Proof.
  intros Hup self probed.
  unfold Convenience.get_sample_data, Convenience.get_data_count,
    Convenience.query_by_location, Convenience.query_by_date_range,
    Convenience.get_data_summary.
  rewrite !init_then, Hup. repeat split.
Qed.

Lemma convenience_functions_probe_then_call_witness :
  snd (Convenience.get_data_summary demo_rt demo_db "argo_data")
  = [SelectOne; SelectSummary; SelectTemporal]
  /\ fst (Convenience.get_data_count demo_rt demo_db "argo_data")
     = fst (get_data_count demo_rt demo_service demo_db).
Proof.
  destruct (convenience_functions_probe_then_call demo_rt demo_db "argo_data" 5
              None None (DStr "") (DStr "") eq_refl)
    as (_ & Hcount & _ & _ & Hsummary).
  split.
  - rewrite Hsummary. reflexivity.
  - rewrite Hcount. reflexivity.
Defined.

(** * Further properties of the validation *)

Lemma in_range_spec (bound a b : Q) :
  in_range bound (Fin a, Fin b) = true
  <-> (- bound <= a /\ a <= b /\ b <= bound)%Q.
Proof.
  unfold in_range. simpl. rewrite !andb_true_iff, !Qle_bool_iff. tauto.
Qed.

(** X9.  For finite bounds [_validate_coordinates] returns [True]
    exactly on a latitude range within [-90, 90] and a longitude range
    within [-180, 180], both with [min <= max]: the bounds themselves
    and one-point ranges pass. *)
Theorem validate_coordinates_accepts_iff (rt : runtime)
    (min_lat max_lat min_lon max_lon : Q) :
  _validate_coordinates rt (Some (Fin min_lat, Fin max_lat))
    (Some (Fin min_lon, Fin max_lon)) = Return true
  <-> (- (90) <= min_lat /\ min_lat <= max_lat /\ max_lat <= 90)%Q
      /\ (- (180) <= min_lon /\ min_lon <= max_lon /\ max_lon <= 180)%Q.
Proof.
  rewrite <- !in_range_spec. unfold _validate_coordinates.
  destruct (in_range 90 (Fin min_lat, Fin max_lat)); simpl.
  - destruct (in_range 180 (Fin min_lon, Fin max_lon)); simpl.
    + split; auto.
    + split; [discriminate|]. intros [_ H]. discriminate.
  - split; [discriminate|]. intros [H _]. discriminate.
Qed.

(** X10.  Whatever [_validate_dates] raises is an
    [OceanDataQueryError]: the [ValueError] of [strptime] does not leave
    it. *)
Theorem validate_dates_raises_only_query_error (rt : runtime)
    (start_date end_date : date_arg) (e : exn) :
  _validate_dates rt start_date end_date = Raise e ->
  exn_cls e = OceanDataQueryError.
Proof.
  unfold _validate_dates, date_and_text.
  assert (Hs : forall s, match strptime rt s with
                         | Return _ => True
                         | Raise x => exn_cls x = ValueError
                         end).
  { intros s. destruct (strptime rt s) eqn:E; [exact I|].
    eapply strptime_raises_ValueError, E. }
  destruct start_date as [s1|d1]; simpl.
  - pose proof (Hs s1) as H1. destruct (strptime rt s1) as [t1|x1]; simpl.
    + destruct end_date as [s2|d2]; simpl.
      * pose proof (Hs s2) as H2. destruct (strptime rt s2) as [t2|x2]; simpl.
        -- destruct (ts_gtb t1 t2); simpl; intros [= <-]; reflexivity.
        -- rewrite H2. intros [= <-]. reflexivity.
      * destruct (ts_gtb t1 (midnight d2)); simpl; intros [= <-]; reflexivity.
    + rewrite H1. intros [= <-]. reflexivity.
  - destruct end_date as [s2|d2]; simpl.
    + pose proof (Hs s2) as H2. destruct (strptime rt s2) as [t2|x2]; simpl.
      * destruct (ts_gtb (midnight d1) t2); simpl; intros [= <-]; reflexivity.
      * rewrite H2. intros [= <-]. reflexivity.
    + destruct (ts_gtb (midnight d1) (midnight d2)); simpl;
        intros [= <-]; reflexivity.
Qed.

Lemma validate_dates_raises_only_query_error_witness :
  exn_cls (MkExn OceanDataQueryError
             "Invalid date format: day is out of range for month")
  = OceanDataQueryError.
Proof.
  apply (validate_dates_raises_only_query_error demo_rt
           (DStr "2019-02-30") (DStr "2019-03-01")).
  reflexivity.
Defined.

(** X11.  Input that fails validation never reaches the database: a bad
    limit, a bad coordinate range or rejected dates give the failure
    envelope and no statement is sent, even when the server is down or
    the table is missing. *)
Theorem invalid_input_sends_nothing (rt : runtime) (self : OceanDataQuery)
    (db : database) (limit : Z) :
  (limit < 1 \/ 1000 < limit ->
   snd (get_sample_data rt self db limit) = [])
  /\ (forall lat_range lon_range : pyfloat * pyfloat,
        bad_range 90 lat_range \/ bad_range 180 lon_range
        \/ limit < 1 \/ 10000 < limit ->
        snd (query_by_location rt self db (Some lat_range) (Some lon_range) limit)
        = []
        /\ exists env,
             fst (query_by_location rt self db (Some lat_range)
                    (Some lon_range) limit) = Return env
             /\ failure_envelope (Records []) env)
  /\ (forall (start_date end_date : date_arg),
        (exists e, _validate_dates rt start_date end_date = Raise e)
        \/ limit < 1 \/ 10000 < limit ->
        snd (query_by_date_range rt self db start_date end_date limit) = []
        /\ exists env,
             fst (query_by_date_range rt self db start_date end_date limit)
             = Return env
             /\ failure_envelope (Records []) env).
Proof.
  split; [|split].
  - intros Hout. unfold get_sample_data.
    rewrite sample_data_try_run, (check_limit_out _ _ _ Hout), eff_try_run.
    reflexivity.
  - intros lat_range lon_range H. unfold query_by_location.
    rewrite location_try_run.
    destruct (_validate_coordinates rt (Some lat_range) (Some lon_range))
      as [ok|e] eqn:Ev.
    + assert (Hlim : limit < 1 \/ 10000 < limit).
      { destruct H as [H|[H|H]]; [| |exact H]; exfalso;
          unfold _validate_coordinates in Ev;
          destruct (in_range 90 lat_range) eqn:E1; simpl in Ev;
          try discriminate.
        - rewrite (in_range_bad _ _ H) in E1. discriminate.
        - rewrite (in_range_bad _ _ H) in Ev. discriminate. }
      rewrite (check_limit_out _ _ _ Hlim), eff_try_run. simpl.
      split; [reflexivity|]. eexists. repeat split.
    + rewrite eff_try_run. simpl.
      split; [reflexivity|]. eexists. repeat split.
  - intros start_date end_date H. unfold query_by_date_range.
    rewrite date_range_try_run.
    destruct (_validate_dates rt start_date end_date) as [dates|e] eqn:Ev.
    + assert (Hlim : limit < 1 \/ 10000 < limit).
      { destruct H as [[e He]|H]; [discriminate|exact H]. }
      rewrite (check_limit_out _ _ _ Hlim), eff_try_run. simpl.
      split; [reflexivity|]. eexists. repeat split.
    + rewrite eff_try_run. simpl.
      split; [reflexivity|]. eexists. repeat split.
Qed.

Lemma invalid_input_sends_nothing_witness :
  snd (get_sample_data demo_rt demo_service demo_db 0) = []
  /\ snd (query_by_location demo_rt demo_service demo_db
            (Some (Fin (-10), Fin 10)) (Some (Fin 60, Fin 80)) 10001) = []
  /\ snd (query_by_date_range demo_rt demo_service demo_db
            (DStr "2019-01-30") (DStr "2019-01-29") 5) = [].
Proof.
  destruct (invalid_input_sends_nothing demo_rt demo_service demo_db 0)
    as (Hsample & _).
  destruct (invalid_input_sends_nothing demo_rt demo_service demo_db 10001)
    as (_ & Hloc & _).
  destruct (invalid_input_sends_nothing demo_rt demo_service demo_db 5)
    as (_ & _ & Hdate).
  split; [apply Hsample; lia|]. split.
  - apply (Hloc (Fin (-10), Fin 10) (Fin 60, Fin 80)). right. right. lia.
  - apply (Hdate (DStr "2019-01-30") (DStr "2019-01-29")).
    left. eexists. reflexivity.
Defined.

(** X12.  [_validate_coordinates] lets a missing range pass, and
    [query_by_location] still fails on it: with [None] for either range
    the call returns the failure envelope and sends no statement. *)
Theorem location_none_range_fails (rt : runtime) (self : OceanDataQuery)
    (db : database) (lat_range lon_range : range_arg) (limit : Z) :
  _validate_coordinates rt None None = Return true
  /\ (lat_range = None \/ lon_range = None ->
      snd (query_by_location rt self db lat_range lon_range limit) = []
      /\ exists env,
           fst (query_by_location rt self db lat_range lon_range limit)
           = Return env
           /\ failure_envelope (Records []) env).
Proof.
  split; [reflexivity|].
  intros Hnone. unfold query_by_location. rewrite location_try_run.
  destruct (_validate_coordinates rt lat_range lon_range);
    [|rewrite eff_try_run; simpl; split; [reflexivity|];
      eexists; repeat split].
  destruct (check_limit limit 10000 _);
    [|rewrite eff_try_run; simpl; split; [reflexivity|];
      eexists; repeat split].
  destruct lat_range as [lat|]; simpl;
    [|split; [reflexivity|]; eexists; repeat split].
  destruct lon_range as [lon|]; simpl;
    [|split; [reflexivity|]; eexists; repeat split].
  destruct Hnone; discriminate.
Qed.

Lemma location_none_range_fails_witness :
  snd (query_by_location demo_rt demo_service demo_db
         None (Some (Fin 60, Fin 80)) 5) = []
  /\ exists env,
       fst (query_by_location demo_rt demo_service demo_db
              None (Some (Fin 60, Fin 80)) 5) = Return env
       /\ failure_envelope (Records []) env.
Proof.
  apply (location_none_range_fails demo_rt demo_service demo_db
           None (Some (Fin 60, Fin 80)) 5).
  left. reflexivity.
Defined.

(** * Date objects and their text *)

Lemma four_digit_years_ok : forallb year_text_ok four_digit_years = true.
Proof. vm_compute. reflexivity. Qed.

Lemma match_Y_zero_pad (y : Z) (rest : string) :
  0 <= y <= 9999 -> match_Y (zero_pad 4 y ++ rest) = Some (y, rest).
Proof.
  intros Hy.
  assert (Hok : year_text_ok y = true).
  { pose proof four_digit_years_ok as H.
    rewrite forallb_forall in H. apply H. unfold four_digit_years.
    apply in_map_iff. exists (Z.to_nat y). split; [lia|].
    apply in_seq. lia. }
  unfold year_text_ok in Hok.
  destruct (zero_pad 4 y) as [|a [|b [|c [|d [|e t]]]]]; try discriminate.
  simpl. rewrite !andb_true_iff in Hok.
  destruct Hok as [[[[Ha Hb] Hc] Hd] Hv].
  rewrite Ha, Hb, Hc, Hd. simpl.
  apply Z.eqb_eq in Hv. rewrite Hv. reflexivity.
Qed.

Lemma match_m_zero_pad (m : Z) (rest : string) :
  1 <= m <= 12 -> match_m (zero_pad 2 m ++ rest) = Some (m, rest).
Proof.
  intros Hm.
  assert (H : m = 1 \/ m = 2 \/ m = 3 \/ m = 4 \/ m = 5 \/ m = 6 \/ m = 7
              \/ m = 8 \/ m = 9 \/ m = 10 \/ m = 11 \/ m = 12) by lia.
  repeat (destruct H as [->|H]; [reflexivity|]). subst m. reflexivity.
Qed.

Lemma match_d_zero_pad (d : Z) :
  1 <= d <= 31 -> match_d (zero_pad 2 d) = Some (d, "").
Proof.
  intros Hd.
  assert (H : d = 1 \/ d = 2 \/ d = 3 \/ d = 4 \/ d = 5 \/ d = 6 \/ d = 7
              \/ d = 8 \/ d = 9 \/ d = 10 \/ d = 11 \/ d = 12 \/ d = 13
              \/ d = 14 \/ d = 15 \/ d = 16 \/ d = 17 \/ d = 18 \/ d = 19
              \/ d = 20 \/ d = 21 \/ d = 22 \/ d = 23 \/ d = 24 \/ d = 25
              \/ d = 26 \/ d = 27 \/ d = 28 \/ d = 29 \/ d = 30 \/ d = 31)
    by lia.
  repeat (destruct H as [->|H]; [reflexivity|]). subst d. reflexivity.
Qed.

Lemma days_in_month_le (y m : Z) : days_in_month y m <= 31.
Proof.
  unfold days_in_month.
  destruct (m =? 2); [destruct (is_leap y); lia|].
  destruct ((m =? 4) || (m =? 6) || (m =? 9) || (m =? 11)); lia.
Qed.

Lemma match_dash_append (rest : string) : match_dash ("-" ++ rest) = Some rest.
Proof. reflexivity. Qed.

Lemma match_ymd_strftime (d : date) :
  valid_date d = true -> match_ymd (strftime d) = Some (d, "").
Proof.
  unfold valid_date. rewrite !andb_true_iff, !Z.leb_le.
  intros [[[[[Hy1 Hy2] Hm1] Hm2] Hd1] Hd2].
  pose proof (days_in_month_le (d_year d) (d_month d)).
  unfold match_ymd, strftime.
  rewrite match_Y_zero_pad by lia. cbn -[zero_pad match_m match_d match_dash].
  rewrite match_dash_append. cbn -[zero_pad match_m match_d match_dash].
  rewrite match_m_zero_pad by lia. cbn -[zero_pad match_m match_d match_dash].
  rewrite match_dash_append. cbn -[zero_pad match_m match_d match_dash].
  rewrite match_d_zero_pad by lia. cbn -[zero_pad].
  destruct d. reflexivity.
Qed.

Lemma strptime_strftime (rt : runtime) (d : date) :
  valid_date d = true -> strptime rt (strftime d) = Return (midnight d).
Proof.
  intros Hd. unfold strptime. rewrite (match_ymd_strftime d Hd), Hd. reflexivity.
Qed.


(** X13.  For dates of the calendar from year 1000 on (where [%Y]
    always writes four digits), the text [strftime] writes for a date
    object is read back by [strptime] as that date; so
    [query_by_date_range] gives the same result, statements included,
    for date objects and for their [YYYY-MM-DD] strings. *)
Theorem date_objects_same_as_strings (rt : runtime) (self : OceanDataQuery)
    (db : database) (d1 d2 : date) (limit : Z) :
  valid_date d1 = true -> valid_date d2 = true ->
  1000 <= d_year d1 -> 1000 <= d_year d2 ->
  strptime rt (strftime d1) = Return (midnight d1)
  /\ query_by_date_range rt self db (DDate d1) (DDate d2) limit
     = query_by_date_range rt self db (DStr (strftime d1)) (DStr (strftime d2))
         limit
  /\ query_by_date_range rt self db (DDate d1) (DStr (strftime d2)) limit
     = query_by_date_range rt self db (DStr (strftime d1)) (DDate d2) limit.
Proof.
  intros H1 H2 _ _. split; [apply strptime_strftime, H1|].
  assert (Hv : forall x y,
             (x = DDate d1 \/ x = DStr (strftime d1)) ->
             (y = DDate d2 \/ y = DStr (strftime d2)) ->
             _validate_dates rt x y = _validate_dates rt (DDate d1) (DDate d2)).
  { intros x y Hx Hy. unfold _validate_dates.
    assert (Ex : date_and_text rt x = Return (midnight d1, strftime d1)).
    { destruct Hx as [->| ->]; simpl; [reflexivity|].
      rewrite (strptime_strftime rt d1 H1). reflexivity. }
    assert (Ey : date_and_text rt y = Return (midnight d2, strftime d2)).
    { destruct Hy as [->| ->]; simpl; [reflexivity|].
      rewrite (strptime_strftime rt d2 H2). reflexivity. }
    rewrite Ex, Ey. reflexivity. }
  unfold query_by_date_range. rewrite !date_range_try_run.
  rewrite (Hv (DStr (strftime d1)) (DStr (strftime d2))) by auto.
  rewrite (Hv (DDate d1) (DStr (strftime d2))) by auto.
  rewrite (Hv (DStr (strftime d1)) (DDate d2)) by auto.
  split; reflexivity.
Qed.

Lemma date_objects_same_as_strings_witness :
  query_by_date_range demo_rt demo_service demo_db
    (DDate (MkDate 2019 1 29)) (DDate (MkDate 2019 2 1)) 5
  = query_by_date_range demo_rt demo_service demo_db
      (DStr "2019-01-29") (DStr "2019-02-01") 5.
Proof.
  apply (date_objects_same_as_strings demo_rt demo_service demo_db
           (MkDate 2019 1 29) (MkDate 2019 2 1) 5);
    first [reflexivity | simpl; lia].
Defined.

(** * What the row-returning operations return *)

Lemma none_if_na_num_cell (col : list (option Q)) (c : option Q) :
  none_if_na (num_cell col c)
  = match c with Some q => PFloat q | None => PNone end.
Proof.
  destruct c; [reflexivity|]. unfold num_cell, null_of.
  destruct (has_value col); reflexivity.
Qed.

Lemma scrub_row_dict (df : list row) (r : row) :
  map (fun kv => (fst kv, none_if_na (snd kv))) (row_dict df r) = plain_dict r.
Proof.
  unfold row_dict, plain_dict. simpl. rewrite !none_if_na_num_cell.
  f_equal; [destruct (r_datetime r); reflexivity|]. do 3 f_equal.
  rewrite map_map. apply map_ext. intros [k c]. simpl.
  rewrite none_if_na_num_cell. reflexivity.
Qed.

(** After the replacement of missing values a returned dictionary
    depends on its row only, not on the other rows of the result. *)
Lemma records_plain (df : list row) :
  nan_to_none (to_dict_records df) = map plain_dict df.
Proof.
  unfold nan_to_none, to_dict_records. rewrite map_map.
  apply map_ext. intros r. apply scrub_row_dict.
Qed.



Lemma sql_limit_short {A : Type} (limit : Z) (l : list A) :
  (length (sql_limit limit l) < Z.to_nat limit)%nat -> sql_limit limit l = l.
Proof.
  unfold sql_limit. rewrite length_take. intros H.
  apply firstn_all2. lia.
Qed.










(** * Invariants of the summary *)

Lemma least_In {A : Type} (leb : A -> A -> bool) (l : list A) (m : A) :
  least leb l = Some m -> In m l.
Proof.
  destruct l as [|x l]; simpl; [discriminate|]. intros [= <-].
  revert x. induction l as [|y l IH]; intros x; simpl; [auto|].
  destruct (IH (if leb x y then x else y)) as [H|H]; [|auto].
  rewrite <- H. destruct (leb x y); auto.
Qed.

Section Least.

Context {A : Type} (leb : A -> A -> bool).
Hypothesis leb_total : forall x y, leb x y = true \/ leb y x = true.
Hypothesis leb_trans :
  forall x y z, leb x y = true -> leb y z = true -> leb x z = true.

Lemma fold_least_le (l : list A) (x : A) :
  leb (fold_left (fun m y => if leb m y then m else y) l x) x = true
  /\ forall z, In z l ->
       leb (fold_left (fun m y => if leb m y then m else y) l x) z = true.
Proof.
  revert x. induction l as [|y l IH]; intros x; simpl.
  - split; [|intros z []]. destruct (leb_total x x); assumption.
  - destruct (IH (if leb x y then x else y)) as [Hm Hall].
    destruct (leb x y) eqn:E.
    + split; [exact Hm|]. intros z [<-|Hz]; [|auto].
      eapply leb_trans; eassumption.
    + assert (Eyx : leb y x = true)
        by (destruct (leb_total x y); congruence).
      split; [eapply leb_trans; eassumption|].
      intros z [<-|Hz]; auto.
Qed.

Lemma least_le (l : list A) (m z : A) :
  least leb l = Some m -> In z l -> leb m z = true.
Proof.
  destruct l as [|x l]; simpl; [discriminate|]. intros [= <-] [<-|Hz].
  - apply (proj1 (fold_least_le l x)).
  - apply (proj2 (fold_least_le l x)), Hz.
Qed.

End Least.

Lemma Qle_bool_total (x y : Q) : Qle_bool x y = true \/ Qle_bool y x = true.
Proof.
  rewrite !Qle_bool_iff. destruct (Qlt_le_dec x y) as [H|H]; [left|right]; auto.
  apply Qlt_le_weak, H.
Qed.

Lemma Qle_bool_trans (x y z : Q) :
  Qle_bool x y = true -> Qle_bool y z = true -> Qle_bool x z = true.
Proof. rewrite !Qle_bool_iff. apply Qle_trans. Qed.

Lemma sql_min_le_max (col : list (option Q)) (a b : Q) :
  sql_min col = Some a -> sql_max col = Some b -> (a <= b)%Q.
Proof.
  unfold sql_min, sql_max. intros Ha Hb.
  pose proof (least_In _ _ _ Hb) as Hin.
  apply Qle_bool_iff.
  apply (least_le Qle_bool Qle_bool_total Qle_bool_trans (values col) a b Ha Hin).
Qed.

Lemma sql_min_time_le_max (col : list (option datetime)) (a b : datetime) :
  sql_min_time col = Some a -> sql_max_time col = Some b -> ts_leb a b = true.
Proof.
  unfold sql_min_time, sql_max_time. intros Ha Hb.
  pose proof (least_In _ _ _ Hb) as Hin.
  apply (least_le ts_leb ts_leb_total ts_leb_trans (values col) a b Ha Hin).
Qed.

Lemma float_or_none_PFloat (x : option Q) (q : Q) :
  float_or_none x = PFloat q -> x = Some q.
Proof.
  destruct x as [y|]; simpl; [|discriminate].
  destruct (Qeq_bool y 0); [discriminate|]. intros [= ->]. reflexivity.
Qed.

Lemma str_or_none_PTime (x : option datetime) (t : datetime) :
  str_or_none x = PTime t -> x = Some t.
Proof. destruct x; simpl; [intros [= ->]; reflexivity|discriminate]. Qed.

(** X17.  In the data of a successful [get_data_summary], whenever a
    minimum and the matching maximum are both reported, the minimum is
    not above the maximum (latitude, longitude, mixed-layer depth), and
    the earliest date is not after the latest. *)
Theorem summary_min_below_max (rt : runtime) (self : OceanDataQuery)
    (db : database) (env : envelope) (s : data_summary) :
  fst (get_data_summary rt self db) = Return env ->
  data env = Summary s ->
  (forall a b, latitude_min s = PFloat a -> latitude_max s = PFloat b ->
               (a <= b)%Q)
  /\ (forall a b, longitude_min s = PFloat a -> longitude_max s = PFloat b ->
                  (a <= b)%Q)
  /\ (forall a b, mld_minimum s = PFloat a -> mld_maximum s = PFloat b ->
                  (a <= b)%Q)
  /\ (forall a b, date_earliest s = PTime a -> date_latest s = PTime b ->
                  ts_leb a b = true).
Proof.
  unfold get_data_summary. rewrite data_summary_try_run.
  destruct (db_up db);
    [|rewrite eff_try_run; simpl; intros [= <-]; discriminate].
  destruct (db_tables db !! table_name self) as [rows|];
    [|rewrite eff_try_run; simpl; intros [= <-]; discriminate].
  rewrite eff_try_run. simpl. intros [= <-]. simpl. intros [= <-]. simpl.
  repeat split; intros a b Ha Hb.
  - apply float_or_none_PFloat in Ha, Hb. eapply sql_min_le_max; eassumption.
  - apply float_or_none_PFloat in Ha, Hb. eapply sql_min_le_max; eassumption.
  - apply float_or_none_PFloat in Ha, Hb. eapply sql_min_le_max; eassumption.
  - apply str_or_none_PTime in Ha, Hb. eapply sql_min_time_le_max; eassumption.
Qed.

Lemma summary_aggregates_demo :
  exists env s,
    fst (get_data_summary demo_rt demo_service demo_db) = Return env
    /\ data env = Summary s
    /\ latitude_min s = PFloat (-20) /\ latitude_max s = PFloat 5.
Proof. eexists _, _. vm_compute. repeat split. Defined.

Lemma summary_min_below_max_witness :
  exists env s,
    fst (get_data_summary demo_rt demo_service demo_db) = Return env
    /\ data env = Summary s
    /\ latitude_min s = PFloat (-20) /\ latitude_max s = PFloat 5
    /\ (-20 <= 5)%Q.
Proof.
  destruct (summary_aggregates_demo) as (env & s & Hret & Hdata & Hmin & Hmax).
  exists env, s. split; [exact Hret|]. split; [exact Hdata|].
  split; [exact Hmin|]. split; [exact Hmax|].
  destruct (summary_min_below_max demo_rt demo_service demo_db env s Hret Hdata)
    as (Hlat & _).
  apply Hlat; assumption.
Defined.

Lemma length_remove_dups {A : Type} `{EqDecision A} (l : list A) :
  (length (remove_dups l) <= length l)%nat.
Proof.
  induction l as [|x l IH]; simpl; [lia|].
  destruct (decide_rel elem_of x l); simpl; lia.
Qed.

Lemma length_values {A : Type} (col : list (option A)) :
  (length (values col) <= length col)%nat.
Proof.
  unfold values. induction col as [|[x|] col IH]; simpl.
  - lia.
  - change (list_omap (option A) A id col) with (omap id col). lia.
  - change (list_omap (option A) A id col) with (omap id col). lia.
Qed.

(** X18.  When [get_data_summary] and [get_data_count] both answer on
    the same database, the summary's [unique_dates] is at most its
    [total_records], which is at most the [total_records] of the count;
    none is negative. *)
Theorem summary_counts_bounded (rt : runtime) (self : OceanDataQuery)
    (db : database) (env_s env_c : envelope) (s : data_summary) (n : Z) :
  fst (get_data_summary rt self db) = Return env_s ->
  data env_s = Summary s ->
  fst (get_data_count rt self db) = Return env_c ->
  data env_c = Count n ->
  0 <= unique_dates s /\ unique_dates s <= total_records s
  /\ total_records s <= n.
Proof.
  unfold get_data_summary, get_data_count.
  rewrite data_summary_try_run, data_count_try_run. unfold on_table.
  destruct (db_up db);
    [|rewrite !eff_try_run; simpl; intros [= <-]; discriminate].
  destruct (db_tables db !! table_name self) as [rows|];
    [|rewrite !eff_try_run; simpl; intros [= <-]; discriminate].
  rewrite !eff_try_run. simpl.
  intros [= <-]. simpl. intros [= <-]. intros [= <-]. simpl. intros [= <-].
  simpl. rewrite !int_or_zero_id. unfold sql_count_distinct, sql_count.
  pose proof (length_remove_dups
                (values (map r_datetime (List.filter mld_not_null rows)))).
  pose proof (length_values (map r_datetime (List.filter mld_not_null rows))).
  pose proof (filter_length_le mld_not_null rows).
  rewrite length_map in *. lia.
Qed.

Lemma summary_counts_bounded_witness :
  exists s n,
    data_summary_try demo_rt demo_service demo_db
    = (Return (_format_response demo_rt (Summary s) true
                 "Dataset summary generated successfully"
                 (Some (MetaSummary (now_iso demo_rt) "argo_data"))),
       [SelectSummary; SelectTemporal])
    /\ unique_dates s = 2 /\ total_records s = 3 /\ n = 4
    /\ unique_dates s <= total_records s /\ total_records s <= n.
Proof.
  eexists _, 4. split; [vm_compute; reflexivity|].
  split; [reflexivity|]. split; [reflexivity|]. split; [reflexivity|].
  eapply (summary_counts_bounded demo_rt demo_service demo_db);
    [vm_compute; reflexivity|reflexivity|vm_compute; reflexivity|reflexivity].
Defined.

(** * The counts of the temporal distribution *)

Lemma sum_counts_insert (k : option (Z * Z)) (g : list (option (Z * Z) * nat)) :
  sum_counts (group_insert k g) = S (sum_counts g).
Proof.
  induction g as [|[k0 c] g IH]; simpl; [reflexivity|].
  destruct (key_compare k k0); simpl; [reflexivity|reflexivity|].
  rewrite IH. lia.
Qed.

Lemma sum_counts_group_by_month (rows : list row) :
  sum_counts (group_by_month rows) = length rows.
Proof.
  induction rows as [|r rows IH]; simpl; [reflexivity|].
  rewrite sum_counts_insert, IH. reflexivity.
Qed.

Lemma sum_counts_firstn (n : nat) (g : list (option (Z * Z) * nat)) :
  (sum_counts (firstn n g) <= sum_counts g)%nat.
Proof.
  revert n. induction g as [|kc g IH]; intros [|n]; simpl; try lia.
  specialize (IH n). lia.
Qed.

Lemma record_count_sum_temporal (g : list (option (Z * Z) * nat)) :
  record_count_sum (temporal_to_dict g) = Z.of_nat (sum_counts g).
Proof.
  unfold temporal_to_dict. generalize (map fst g). intros keys.
  induction g as [|kc g IH]; simpl; [reflexivity|].
  rewrite IH. lia.
Qed.

(** X19.  The [record_count] fields of [temporal_distribution] count
    every row of the table, also those the summary's [total_records]
    leaves out: their sum is at most the [total_records] of
    [get_data_count], and equals it when the list has fewer than twelve
    entries. *)
Theorem temporal_counts_sum (rt : runtime) (self : OceanDataQuery)
    (db : database) (env_s env_c : envelope) (s : data_summary) (n : Z) :
  fst (get_data_summary rt self db) = Return env_s ->
  data env_s = Summary s ->
  fst (get_data_count rt self db) = Return env_c ->
  data env_c = Count n ->
  0 <= record_count_sum (temporal_distribution s)
  /\ record_count_sum (temporal_distribution s) <= n
  /\ ((length (temporal_distribution s) < 12)%nat ->
      record_count_sum (temporal_distribution s) = n).
Proof.
  unfold get_data_summary, get_data_count.
  rewrite data_summary_try_run, data_count_try_run. unfold on_table.
  destruct (db_up db);
    [|rewrite !eff_try_run; simpl; intros [= <-]; discriminate].
  destruct (db_tables db !! table_name self) as [rows|];
    [|rewrite !eff_try_run; simpl; intros [= <-]; discriminate].
  rewrite !eff_try_run. simpl.
  intros [= <-]. simpl. intros [= <-]. intros [= <-]. simpl. intros [= <-].
  simpl. rewrite record_count_sum_temporal. unfold sql_count.
  pose proof (sum_counts_group_by_month rows) as Hsum.
  split; [lia|]. split.
  - unfold sql_temporal, sql_limit.
    pose proof (sum_counts_firstn (Z.to_nat 12) (group_by_month rows)). lia.
  - unfold temporal_to_dict. rewrite length_map. intros Hshort.
    unfold sql_temporal in *.
    rewrite sql_limit_short by (change (Z.to_nat 12) with 12%nat; exact Hshort).
    lia.
Qed.

Lemma temporal_counts_sum_witness :
  exists s,
    fst (get_data_summary demo_rt demo_service demo_db)
    = Return (_format_response demo_rt (Summary s) true
                "Dataset summary generated successfully"
                (Some (MetaSummary (now_iso demo_rt) "argo_data")))
    /\ total_records s = 3
    /\ record_count_sum (temporal_distribution s) = 4.
Proof.
  eexists. split; [vm_compute; reflexivity|]. split; [reflexivity|].
  eapply (temporal_counts_sum demo_rt demo_service demo_db);
    [vm_compute; reflexivity|reflexivity|vm_compute; reflexivity|reflexivity|].
  vm_compute. lia.
Defined.

(** * The average depth *)







(** * The shape of the envelopes *)

Ltac split_run :=
  repeat match goal with
         | |- context [match ?x with _ => _ end] => destruct x eqn:?
         | |- context [if ?b then _ else _] => destruct b eqn:?
         end.

(** X21.  Every envelope of the five operations carries metadata
    exactly when [success] is true: the failure envelopes have none. *)
Theorem metadata_iff_success (rt : runtime) (self : OceanDataQuery)
    (db : database) (limit : Z) (lat_range lon_range : range_arg)
    (start_date end_date : date_arg) :
  let shaped (op : eff envelope) : Prop :=
    exists env, fst op = Return env
                /\ (success env = true <-> metadata env <> None) in
  shaped (get_sample_data rt self db limit)
  /\ shaped (get_data_count rt self db)
  /\ shaped (query_by_location rt self db lat_range lon_range limit)
  /\ shaped (query_by_date_range rt self db start_date end_date limit)
  /\ shaped (get_data_summary rt self db).
Proof.
  cbv zeta. repeat split.
  - unfold get_sample_data. rewrite sample_data_try_run. unfold on_table.
    split_run; rewrite eff_try_run; simpl; eexists; (split; [reflexivity|]);
      simpl; split; congruence.
  - unfold get_data_count. rewrite data_count_try_run. unfold on_table.
    split_run; rewrite eff_try_run; simpl; eexists; (split; [reflexivity|]);
      simpl; split; congruence.
  - unfold query_by_location. rewrite location_try_run. unfold on_table.
    split_run; rewrite eff_try_run; simpl; eexists; (split; [reflexivity|]);
      simpl; split; congruence.
  - unfold query_by_date_range. rewrite date_range_try_run. unfold on_table.
    split_run; rewrite eff_try_run; simpl; eexists; (split; [reflexivity|]);
      simpl; split; congruence.
  - unfold get_data_summary. rewrite data_summary_try_run.
    split_run; rewrite eff_try_run; simpl; eexists; (split; [reflexivity|]);
      simpl; split; congruence.
Qed.

Lemma columns_of_records_nil (df : list row) :
  columns_of (map plain_dict df) = [] <-> map plain_dict df = [].
Proof.
  destruct df as [|r df]; simpl; [tauto|].
  split; discriminate.
Qed.

(** X22.  The three row-returning operations never return more records
    than the limit asked for, whatever the input; and on success the
    metadata echo the limit, give the number of records returned, and
    list no column exactly when no record is returned. *)
Theorem records_within_limit (rt : runtime) (self : OceanDataQuery)
    (db : database) (limit : Z) (lat_range lon_range : range_arg)
    (start_date end_date : date_arg) :
  (exists env l,
      fst (get_sample_data rt self db limit) = Return env
      /\ data env = Records l
      /\ (length l <= Z.to_nat limit)%nat
      /\ (success env = true ->
          exists cols,
            metadata env = Some (MetaSample limit (length l) cols)
            /\ (cols = [] <-> l = [])))
  /\ (exists env l,
        fst (query_by_location rt self db lat_range lon_range limit) = Return env
        /\ data env = Records l
        /\ (length l <= Z.to_nat limit)%nat
        /\ (success env = true ->
            exists cols,
              metadata env
              = Some (MetaLocation lat_range lon_range limit (length l) cols)
              /\ (cols = [] <-> l = [])))
  /\ (exists env l,
        fst (query_by_date_range rt self db start_date end_date limit)
        = Return env
        /\ data env = Records l
        /\ (length l <= Z.to_nat limit)%nat
        /\ (success env = true ->
            exists start_str end_str cols,
              _validate_dates rt start_date end_date
              = Return (start_str, end_str)
              /\ metadata env
                 = Some (MetaDateRange start_str end_str limit (length l) cols)
              /\ (cols = [] <-> l = []))).
Proof.
  assert (Hfail : forall msg P,
             exists env l,
               Return (_format_response rt (Records []) false msg None)
               = Return env
               /\ data env = Records l
               /\ (length l <= Z.to_nat limit)%nat
               /\ (success env = true -> P env l)).
  { intros msg P. eexists _, _. split; [reflexivity|].
    split; [reflexivity|]. split; [simpl; lia|]. simpl. discriminate. }
  split; [|split].
  - unfold get_sample_data. rewrite sample_data_try_run.
    destruct (check_limit _ _ _); [|rewrite eff_try_run; apply Hfail].
    unfold on_table.
    destruct (db_up db); [|rewrite eff_try_run; apply Hfail].
    destruct (db_tables db !! table_name self) as [rows|];
      [|rewrite eff_try_run; apply Hfail].
    rewrite eff_try_run. cbv zeta. rewrite records_plain.
    eexists _, _. split; [reflexivity|]. split; [reflexivity|].
    split; [rewrite length_map; apply length_sql_limit|].
    intros _. eexists. split; [reflexivity|]. apply columns_of_records_nil.
  - unfold query_by_location. rewrite location_try_run.
    destruct (_validate_coordinates _ _ _); [|rewrite eff_try_run; apply Hfail].
    destruct (check_limit _ _ _); [|rewrite eff_try_run; apply Hfail].
    destruct (unpack lat_range); [|rewrite eff_try_run; apply Hfail].
    destruct (unpack lon_range); [|rewrite eff_try_run; apply Hfail].
    unfold on_table.
    destruct (db_up db); [|rewrite eff_try_run; apply Hfail].
    destruct (db_tables db !! table_name self) as [rows|];
      [|rewrite eff_try_run; apply Hfail].
    rewrite eff_try_run. cbv zeta. rewrite records_plain.
    eexists _, _. split; [reflexivity|]. split; [reflexivity|].
    split; [rewrite length_map; apply length_sql_limit|].
    intros _. eexists. split; [reflexivity|]. apply columns_of_records_nil.
  - unfold query_by_date_range. rewrite date_range_try_run.
    destruct (_validate_dates _ _ _) as [[start_str end_str]|];
      [|rewrite eff_try_run; apply Hfail].
    destruct (check_limit _ _ _); [|rewrite eff_try_run; apply Hfail].
    unfold on_table.
    destruct (db_up db); [|rewrite eff_try_run; apply Hfail].
    destruct (db_tables db !! table_name self) as [rows|];
      [|rewrite eff_try_run; apply Hfail].
    unfold sql_by_date. simpl fst. simpl snd.
    destruct (sql_cast_date rt start_str) as [lo|];
      [|rewrite eff_try_run; apply Hfail].
    destruct (sql_cast_date rt end_str) as [hi|];
      [|rewrite eff_try_run; apply Hfail].
    rewrite eff_try_run. simpl. rewrite records_plain.
    eexists _, _. split; [reflexivity|]. split; [reflexivity|].
    split; [rewrite length_map; apply length_sql_limit|].
    intros _. eexists _, _, _. split; [reflexivity|].
    split; [reflexivity|]. apply columns_of_records_nil.
Qed.

Lemma records_within_limit_witness :
  exists env l,
    fst (query_by_location demo_rt demo_service demo_db
           (Some (Fin (-90), Fin 90)) (Some (Fin (-180), Fin 180)) 2)
    = Return env
    /\ data env = Records l /\ (length l <= 2)%nat.
Proof.
  destruct (records_within_limit demo_rt demo_service demo_db 2
              (Some (Fin (-90), Fin 90)) (Some (Fin (-180), Fin 180))
              (DStr "") (DStr ""))
    as (_ & (env & l & Hret & Hdata & Hlen & _) & _).
  exists env, l. repeat split; assumption.
Defined.


Lemma validate_coordinates_accepts_iff_witness :
  _validate_coordinates demo_rt (Some (Fin (-90), Fin 90))
    (Some (Fin 180, Fin 180)) = Return true.
Proof.
  apply (validate_coordinates_accepts_iff demo_rt (-90) 90 180 180).
  unfold Qle; simpl; lia.
Defined.

Lemma metadata_iff_success_witness :
  exists env,
    fst (get_data_count demo_rt demo_service down_db) = Return env
    /\ (success env = true <-> metadata env <> None).
Proof.
  destruct (metadata_iff_success demo_rt demo_service down_db 5 None None
              (DStr "") (DStr "")) as (_ & Hcount & _).
  exact Hcount.
Defined.
